(** * Geo-temporal Weather Forecast Platform: the HTTP layer of main.py
    and the schemas of schemas.py, embedded and checked against the
    specification.

    The handlers are embedded as pure functions: the document store is an
    explicit state, Python exceptions are an error monad, the wall clock is an
    argument, and the identifier the store assigns to a new document is an
    argument of the insert. *)

From Stdlib Require Import ZArith Floats Uint63 Lia Ascii String.
From stdpp Require Import gmap strings list fin_maps pretty.

Set Warnings "-register-all,-inexact-float".

Local Open Scope string_scope.
Local Open Scope Z_scope.

(** ** Python exceptions and results *)

(** [HTTPException] is FastAPI's; every other exception the handlers can meet
    (bson's InvalidId, a failure of the store, OverflowError, KeyError) is a
    [PyException] with its class name and its message. *)
Inductive exn :=
  | HTTPException (status_code : Z) (detail : string)
  | PyException (class_name : string) (msg : string).

(** [str(e)]: Starlette's HTTPException prints "<status>: <detail>", the
    others print their message. *)
Definition str_exn (e : exn) : string :=
  match e with
  | HTTPException c d => pretty c +:+ ": " +:+ d
  | PyException _ m => m
  end.

Inductive result (A : Type) :=
  | Return (a : A)
  | Raise (e : exn).
Arguments Return {A} a.
Arguments Raise {A} e.

#[global] Instance result_ret : MRet result := λ A a, Return a.
#[global] Instance result_bind : MBind result := λ A B f r,
  match r with
  | Return a => f a
  | Raise e => Raise e
  end.

(** What the client receives: a 200 response with a body, or an error
    response with its status code and detail. *)
Inductive response (A : Type) :=
  | Body (a : A)
  | Error (status_code : Z) (detail : string).
Arguments Body {A} a.
Arguments Error {A} status_code detail.

Definition status {A} (r : response A) : Z :=
  match r with
  | Body _ => 200
  | Error c _ => c
  end.

(** FastAPI turns a raised HTTPException into a response with its status and
    detail, and any other exception into a plain 500. *)
Definition respond {A} (r : result A) : response A :=
  match r with
  | Return a => Body a
  | Raise (HTTPException c d) => Error c d
  | Raise (PyException _ _) => Error 500 "Internal Server Error"
  end.

(** [try: ... except Exception as e: raise HTTPException(status_code=500,
    detail=str(e))], the wrapper around every store-backed handler body.
    HTTPException is a subclass of Exception, so it is caught as well. *)
Definition except_500 {A} (body : result A) : result A :=
  match body with
  | Return a => Return a
  | Raise e => Raise (HTTPException 500 (str_exn e))
  end.

(** ** datetime (the part generate_meteogram uses) *)

Record datetime := {
  year : Z; month : Z; day : Z;
  hour : Z; minute : Z; second : Z; microsecond : Z
}.

Definition MAXORDINAL : Z := 3652059.

Definition is_leap (y : Z) : bool :=
  (y mod 4 =? 0) && (negb (y mod 100 =? 0) || (y mod 400 =? 0)).

Definition days_in_month (y m : Z) : Z :=
  if m =? 2 then (if is_leap y then 29 else 28)
  else if (m =? 4) || (m =? 6) || (m =? 9) || (m =? 11) then 30
  else 31.

Definition days_before_year (y : Z) : Z :=
  let y1 := y - 1 in y1 * 365 + y1 / 4 - y1 / 100 + y1 / 400.

(** Days of a common year before month [m], the table _DAYS_BEFORE_MONTH. *)
Definition DAYS_BEFORE_MONTH (m : Z) : Z :=
  match m with
  | 1 => 0 | 2 => 31 | 3 => 59 | 4 => 90 | 5 => 120 | 6 => 151
  | 7 => 181 | 8 => 212 | 9 => 243 | 10 => 273 | 11 => 304 | 12 => 334
  | _ => 0
  end.

Definition days_before_month (y m : Z) : Z :=
  DAYS_BEFORE_MONTH m + (if (2 <? m) && is_leap y then 1 else 0).

Definition ymd2ord (y m d : Z) : Z :=
  days_before_year y + days_before_month y m + d.

Definition DI400Y : Z := 146097.
Definition DI100Y : Z := 36524.
Definition DI4Y : Z := 1461.

Definition ord2ymd (ordinal : Z) : Z * Z * Z :=
  let n := ordinal - 1 in
  let n400 := n / DI400Y in
  let n := n mod DI400Y in
  let n100 := n / DI100Y in
  let n := n mod DI100Y in
  let n4 := n / DI4Y in
  let n := n mod DI4Y in
  let n1 := n / 365 in
  let n := n mod 365 in
  let y := n400 * 400 + 1 + n100 * 100 + n4 * 4 + n1 in
  if (n1 =? 4) || (n100 =? 4) then (y - 1, 12, 31)
  else
    let leapyear := (n1 =? 3) && (negb (n4 =? 24) || (n100 =? 3)) in
    let m := Z.shiftr (n + 50) 5 in
    let preceding := DAYS_BEFORE_MONTH m + (if (2 <? m) && leapyear then 1 else 0) in
    if n <? preceding then
      let m' := m - 1 in
      let dim := if (m' =? 2) && leapyear then 29 else days_in_month 1 m' in
      (y, m', n - (preceding - dim) + 1)
    else (y, m, n - preceding + 1).

Definition toordinal (d : datetime) : Z := ymd2ord (year d) (month d) (day d).

Definition valid_datetime (d : datetime) : Prop :=
  1 <= year d <= 9999 ∧ 1 <= month d <= 12 ∧
  1 <= day d <= days_in_month (year d) (month d) ∧
  0 <= hour d < 24 ∧ 0 <= minute d < 60 ∧ 0 <= second d < 60 ∧
  0 <= microsecond d < 1000000.

(** [d.replace(minute=0, second=0, microsecond=0)] *)
Definition replace_minute_second_microsecond_0 (d : datetime) : datetime :=
  {| year := year d; month := month d; day := day d; hour := hour d;
     minute := 0; second := 0; microsecond := 0 |}.

(** The date and time [h] hours after [d], with the days and the seconds
    renormalised. *)
Definition plus_hours (d : datetime) (h : Z) : datetime :=
  let secs := hour d * 3600 + minute d * 60 + second d + h * 3600 in
  let s := secs mod 86400 in
  let '(y, m, dd) := ord2ymd (toordinal d + secs / 86400) in
  {| year := y; month := m; day := dd;
     hour := s / 3600; minute := (s mod 3600) / 60; second := s mod 60;
     microsecond := microsecond d |}.

(** [d + timedelta(hours=h)]: refused with OverflowError when the day falls
    outside the ordinals 1..MAXORDINAL. *)
Definition add_hours (d : datetime) (h : Z) : result datetime :=
  let secs := hour d * 3600 + minute d * 60 + second d + h * 3600 in
  let days := toordinal d + secs / 86400 in
  if (0 <? days) && (days <=? MAXORDINAL) then Return (plus_hours d h)
  else Raise (PyException "OverflowError" "date value out of range").

(** ["%0<w>d" % n] for a natural number [n]. *)
Definition zfill (w : nat) (n : Z) : string :=
  let s := pretty n in
  String.concat "" (replicate (w - String.length s)%nat "0") +:+ s.

(** [d.isoformat()] of a naive datetime: no offset, and the fraction only
    when the microsecond is not zero. *)
Definition isoformat (d : datetime) : string :=
  zfill 4 (year d) +:+ "-" +:+ zfill 2 (month d) +:+ "-" +:+ zfill 2 (day d)
  +:+ "T" +:+ zfill 2 (hour d) +:+ ":" +:+ zfill 2 (minute d) +:+ ":"
  +:+ zfill 2 (second d)
  +:+ (if microsecond d =? 0 then "" else "." +:+ zfill 6 (microsecond d)).

(** ** Python strings *)

(** A Python [str] is kept as its UTF-8 bytes; a character is a lead byte
    with the continuation bytes (10xxxxxx) that follow it. *)
Definition is_continuation (c : ascii) : bool :=
  match c with
  | Ascii _ _ _ _ _ _ b6 b7 => b7 && negb b6
  end.

(** [len(s)] *)
Fixpoint char_length (s : string) : nat :=
  match s with
  | EmptyString => 0
  | String c s' =>
      if is_continuation c then char_length s' else S (char_length s')
  end.

(** [s[:n]] *)
Fixpoint take_chars (n : nat) (s : string) : string :=
  match s with
  | EmptyString => EmptyString
  | String c s' =>
      if is_continuation c then String c (take_chars n s')
      else match n with
           | O => EmptyString
           | S n' => String c (take_chars n' s')
           end
  end.

(** ** bson.ObjectId *)

Inductive hexdigit :=
  | H0 | H1 | H2 | H3 | H4 | H5 | H6 | H7
  | H8 | H9 | Ha | Hb | Hc | Hd | He | Hf.

#[global] Instance hexdigit_eq_dec : EqDecision hexdigit.
Proof. solve_decision. Defined.

(** The bytes of an ObjectId, kept as their hexadecimal digits. One that the
    store assigns has 12 bytes, 24 digits; [ObjectId(s)] does not check how
    many bytes [bytes.fromhex] gave it. *)
Definition ObjectId := list hexdigit.


Definition hexchar (h : hexdigit) : ascii :=
  match h with
  | H0 => "0" | H1 => "1" | H2 => "2" | H3 => "3" | H4 => "4" | H5 => "5"
  | H6 => "6" | H7 => "7" | H8 => "8" | H9 => "9" | Ha => "a" | Hb => "b"
  | Hc => "c" | Hd => "d" | He => "e" | Hf => "f"
  end%char.

(** bytes.fromhex takes both cases of a letter digit. *)
Definition hex_table : list (ascii * hexdigit) :=
  [("0", H0); ("1", H1); ("2", H2); ("3", H3); ("4", H4); ("5", H5);
   ("6", H6); ("7", H7); ("8", H8); ("9", H9);
   ("a", Ha); ("b", Hb); ("c", Hc); ("d", Hd); ("e", He); ("f", Hf);
   ("A", Ha); ("B", Hb); ("C", Hc); ("D", Hd); ("E", He); ("F", Hf)]%char.

Definition parse_hexchar (c : ascii) : option hexdigit :=
  snd <$> List.find (λ p, Ascii.eqb (fst p) c) hex_table.

(** [str(oid)]: the lowercase hexadecimal digits. *)
Fixpoint oid_str (o : ObjectId) : string :=
  match o with
  | [] => ""
  | h :: o' => String (hexchar h) (oid_str o')
  end.

(** ASCII whitespace: space, tab, line feed, vertical tab, form feed and
    carriage return. *)
Definition is_space (c : ascii) : bool :=
  existsb (Ascii.eqb c) [" "; "009"; "010"; "011"; "012"; "013"]%char.

(** [bytes.fromhex(s)]: pairs of hexadecimal digits, with ASCII whitespace
    skipped before a pair (not inside one); [None] for its ValueError. *)
Fixpoint bytes_fromhex (s : string) : option (list hexdigit) :=
  match s with
  | EmptyString => Some []
  | String c s' =>
      if is_space c then bytes_fromhex s'
      else
        match s' with
        | EmptyString => None
        | String c' s'' =>
            match parse_hexchar c, parse_hexchar c', bytes_fromhex s'' with
            | Some h, Some h', Some o => Some (h :: h' :: o)
            | _, _, _ => None
            end
        end
  end.

(** ** Documents *)

(** The values a stored document or a filter holds. Nested documents keep
    their key order; a top-level document is a dictionary the handlers read
    and update by key. *)
Inductive value :=
  | VNone
  | VBool (b : bool)
  | VInt (z : Z)
  | VFloat (f : float)
  | VStr (s : string)
  | VOid (o : ObjectId)
  | VList (l : list value)
  | VDict (l : list (string * value)).

Abbreviation doc := (gmap string value).

(** Python truth value, as [if d.get("_id"):] takes it. *)
Definition truthy (v : value) : bool :=
  match v with
  | VNone => false
  | VBool b => b
  | VInt z => negb (z =? 0)
  | VFloat f => negb (PrimFloat.eqb f 0%float)
  | VStr s => negb (String.eqb s "")
  | VOid _ => true
  | VList l => match l with [] => false | _ => true end
  | VDict l => match l with [] => false | _ => true end
  end.

(** Exact match of two values, the comparison of a filter entry with a
    field. *)
Fixpoint value_eqb (a b : value) {struct a} : bool :=
  match a, b with
  | VNone, VNone => true
  | VBool x, VBool y => Bool.eqb x y
  | VInt x, VInt y => x =? y
  | VFloat x, VFloat y => PrimFloat.eqb x y
  | VStr x, VStr y => String.eqb x y
  | VOid x, VOid y => bool_decide (x = y)
  | VList xs, VList ys =>
      (fix go (xs ys : list value) : bool :=
         match xs, ys with
         | [], [] => true
         | x :: xs', y :: ys' => value_eqb x y && go xs' ys'
         | _, _ => false
         end) xs ys
  | VDict xs, VDict ys =>
      (fix go (xs ys : list (string * value)) : bool :=
         match xs, ys with
         | [], [] => true
         | (k, x) :: xs', (k', y) :: ys' =>
             String.eqb k k' && value_eqb x y && go xs' ys'
         | _, _ => false
         end) xs ys
  | _, _ => false
  end.

(** ** schemas.py *)

Inductive ModelName := WRF | GFS | ICON | ECMWF.
Inductive ForecastVariable := fv_t2m | fv_u10 | fv_v10 | fv_precip | fv_mslp.
(** Literal["t2m", "precip", "mslp"], of Alert and of MeteogramRequest. *)
Inductive PointVariable := t2m | precip | mslp.
Inductive Comparison := cmp_ge | cmp_gt | cmp_le | cmp_lt.

Definition str_ModelName (m : ModelName) : string :=
  match m with WRF => "WRF" | GFS => "GFS" | ICON => "ICON" | ECMWF => "ECMWF" end.
Definition str_ForecastVariable (v : ForecastVariable) : string :=
  match v with
  | fv_t2m => "t2m" | fv_u10 => "u10" | fv_v10 => "v10"
  | fv_precip => "precip" | fv_mslp => "mslp"
  end.
Definition str_PointVariable (v : PointVariable) : string :=
  match v with t2m => "t2m" | precip => "precip" | mslp => "mslp" end.
Definition str_Comparison (c : Comparison) : string :=
  match c with cmp_ge => ">=" | cmp_gt => ">" | cmp_le => "<=" | cmp_lt => "<" end.

(** Membership in a Literal[...]: the member with that spelling. *)
Definition parse_literal {A} (spell : A → string) (members : list A) (s : string)
  : option A :=
  List.find (λ a, String.eqb (spell a) s) members.

Definition parse_ModelName := parse_literal str_ModelName [WRF; GFS; ICON; ECMWF].
Definition parse_ForecastVariable :=
  parse_literal str_ForecastVariable [fv_t2m; fv_u10; fv_v10; fv_precip; fv_mslp].
Definition parse_PointVariable := parse_literal str_PointVariable [t2m; precip; mslp].
Definition parse_Comparison :=
  parse_literal str_Comparison [cmp_ge; cmp_gt; cmp_le; cmp_lt].

Record ForecastGridPoint := {
  gp_lat : float;
  gp_lon : float;
  gp_values : list float
}.

Record Forecast := {
  forecast_model : ModelName;
  forecast_init_time : string;
  forecast_lead_hours : Z;
  forecast_variable : ForecastVariable;
  forecast_bbox : list float;
  forecast_grid_res_km : float;
  forecast_times : list string;
  forecast_grid : list ForecastGridPoint
}.

Record Alert := {
  alert_name : string;
  alert_variable : PointVariable;
  alert_threshold : float;
  alert_comparison : Comparison;
  alert_polygon : list (list float);
  alert_active : bool
}.

Record MeteogramRequest := {
  req_lat : float;
  req_lon : float;
  req_variable : PointVariable;
  req_forecast_id : option string
}.

(** A request body as it arrives: every field may be missing, and the
    Literal fields are still strings. Fields of the wrong JSON type are
    excluded by the types. *)
Record ForecastBody := {
  body_model : option string;
  body_init_time : option string;
  body_lead_hours : option Z;
  body_variable : option string;
  body_bbox : option (list float);
  body_grid_res_km : option float;
  body_times : option (list string);
  body_grid : option (list ForecastGridPoint)
}.

Record AlertBody := {
  abody_name : option string;
  abody_variable : option string;
  abody_threshold : option float;
  abody_comparison : option string;
  abody_polygon : option (list (list float));
  abody_active : option bool
}.

(** One field of a model: [Field(...)] is required, [= default] is not; the
    check is the field's constraint. The error names the field. *)
Definition required {A B} (name : string) (check : A → option B) (x : option A)
  : list string + B :=
  match x with
  | None => inl [name]
  | Some a => match check a with Some b => inr b | None => inl [name] end
  end.

Definition defaulted {A B} (name : string) (check : A → option B) (dflt : B)
  (x : option A) : list string + B :=
  match x with
  | None => inr dflt
  | Some a => match check a with Some b => inr b | None => inl [name] end
  end.

Definition errors_of {B} (r : list string + B) : list string :=
  match r with inl e => e | inr _ => [] end.

Definition check_range (lo hi : Z) (n : Z) : option Z :=
  if (lo <=? n) && (n <=? hi) then Some n else None.

Definition check_items {A} (min_items max_items : nat) (l : list A) : option (list A) :=
  if (min_items <=? length l)%nat && (length l <=? max_items)%nat then Some l else None.

(** Validation of a Forecast body, field by field as the class declares
    them; all the offending fields are reported. *)
Definition validate_forecast (b : ForecastBody) : list string + Forecast :=
  let model := defaulted "model" parse_ModelName WRF (body_model b) in
  let init_time := required "init_time" Some (body_init_time b) in
  let lead_hours := required "lead_hours" (check_range 1 240) (body_lead_hours b) in
  let variable := defaulted "variable" parse_ForecastVariable fv_t2m (body_variable b) in
  let bbox := required "bbox" (check_items 4 4) (body_bbox b) in
  let grid_res_km := defaulted "grid_res_km" Some 10%float (body_grid_res_km b) in
  let times := required "times" Some (body_times b) in
  let grid := required "grid" Some (body_grid b) in
  match model, init_time, lead_hours, variable, bbox, grid_res_km, times, grid with
  | inr m, inr it, inr lh, inr v, inr bb, inr gr, inr ts, inr g =>
      inr {| forecast_model := m; forecast_init_time := it;
             forecast_lead_hours := lh; forecast_variable := v;
             forecast_bbox := bb; forecast_grid_res_km := gr;
             forecast_times := ts; forecast_grid := g |}
  | _, _, _, _, _, _, _, _ =>
      inl (errors_of model ++ errors_of init_time ++ errors_of lead_hours
           ++ errors_of variable ++ errors_of bbox ++ errors_of grid_res_km
           ++ errors_of times ++ errors_of grid)%list
  end.

Definition validate_alert (b : AlertBody) : list string + Alert :=
  let name := required "name" Some (abody_name b) in
  let variable := defaulted "variable" parse_PointVariable t2m (abody_variable b) in
  let threshold := required "threshold" Some (abody_threshold b) in
  let comparison := defaulted "comparison" parse_Comparison cmp_ge (abody_comparison b) in
  let polygon := required "polygon" Some (abody_polygon b) in
  let active := defaulted "active" Some true (abody_active b) in
  match name, variable, threshold, comparison, polygon, active with
  | inr n, inr v, inr t, inr c, inr p, inr a =>
      inr {| alert_name := n; alert_variable := v; alert_threshold := t;
             alert_comparison := c; alert_polygon := p; alert_active := a |}
  | _, _, _, _, _, _ =>
      inl (errors_of name ++ errors_of variable ++ errors_of threshold
           ++ errors_of comparison ++ errors_of polygon ++ errors_of active)%list
  end.

(** [model_dump()]: the record as a dictionary. *)
Class BaseModel (A : Type) := model_dump : A → doc.

Definition dump_grid_point (p : ForecastGridPoint) : value :=
  VDict [("lat", VFloat (gp_lat p)); ("lon", VFloat (gp_lon p));
         ("values", VList (VFloat <$> gp_values p))].

#[global] Instance Forecast_model : BaseModel Forecast := λ f,
  <["model" := VStr (str_ModelName (forecast_model f))]>
  (<["init_time" := VStr (forecast_init_time f)]>
  (<["lead_hours" := VInt (forecast_lead_hours f)]>
  (<["variable" := VStr (str_ForecastVariable (forecast_variable f))]>
  (<["bbox" := VList (VFloat <$> forecast_bbox f)]>
  (<["grid_res_km" := VFloat (forecast_grid_res_km f)]>
  (<["times" := VList (VStr <$> forecast_times f)]>
  (<["grid" := VList (dump_grid_point <$> forecast_grid f)]> ∅))))))).

#[global] Instance Alert_model : BaseModel Alert := λ a,
  <["name" := VStr (alert_name a)]>
  (<["variable" := VStr (str_PointVariable (alert_variable a))]>
  (<["threshold" := VFloat (alert_threshold a)]>
  (<["comparison" := VStr (str_Comparison (alert_comparison a))]>
  (<["polygon" := VList ((λ p, VList (VFloat <$> p)) <$> alert_polygon a)]>
  (<["active" := VBool (alert_active a)]> ∅))))).




(** ** The document store gateway (database.py) *)

(** The store: [None] when no connection is available, otherwise each
    collection's documents in insertion order. *)
Definition database := option (gmap string (list doc)).

Definition collection (db : database) (collection_name : string) : list doc :=
  match db with
  | Some colls => default [] (colls !! collection_name)
  | None => []
  end.

(** A document satisfies a filter when every field the filter names is
    present with exactly that value. *)
Definition field_matches (d : doc) (k : string) (v : value) : bool :=
  match d !! k with
  | Some v' => value_eqb v v'
  | None => false
  end.

Definition matches (filt : doc) (d : doc) : bool :=
  forallb (λ kv, field_matches d kv.1 kv.2) (map_to_list filt).

(** Modelled from the spec: the gateway's insert(collectionName, record), whose
    source file database.py is missing. It serializes the validated record,
    writes it to the named collection and returns the newly assigned unique
    identifier as a string; it fails when the connection is unavailable or the
    write is rejected. The identifier the store assigns is the argument [oid];
    a write under an identifier the collection already holds is rejected. *)
Definition create_document {A} `{BaseModel A} (db : database) (oid : ObjectId)
  (collection_name : string) (data : A) : result string * database :=
  match db with
  | None => (Raise (PyException "Exception" "Database not available"), db)
  | Some colls =>
      let docs := default [] (colls !! collection_name) in
      if existsb (λ d, field_matches d "_id" (VOid oid)) docs then
        (Raise (PyException "DuplicateKeyError" "duplicate key error"), db)
      else
        (Return (oid_str oid),
         Some (<[collection_name := (docs ++ [<["_id" := VOid oid]> (model_dump data)])%list]> colls))
  end.

(** Modelled from the spec: the gateway's query(collectionName, filter, limit),
    whose source file database.py is missing. It returns the records of the
    collection that match the filter exactly, in insertion order, at most
    [limit] of them; the empty sequence when none matches; it fails when the
    connection is unavailable. *)
Definition get_documents (db : database) (collection_name : string)
  (filt : doc) (limit : Z) : result (list doc) :=
  match db with
  | None => Raise (PyException "Exception" "Database not available")
  | Some colls =>
      Return (take (Z.to_nat limit)
                (List.filter (matches filt) (default [] (colls !! collection_name))))
  end.

(** ** main.py *)

Record InsertResponse := { id : string }.

Record MeteogramResponse := {
  lat : float;
  lon : float;
  variable : PointVariable;
  times : list string;
  values : list float;
  units : string
}.

(** [Query(default, ge=.., le=..)] on an integer query parameter: the default
    when the parameter is absent, a 422 validation error naming the parameter
    when it is out of range. *)
Definition Query {A} (name : string) (dflt ge le : Z) (q : option Z)
  : response A + Z :=
  match q with
  | None => inr dflt
  | Some n =>
      if (ge <=? n) && (n <=? le) then inr n
      else inl (Error 422 ("query." +:+ name))
  end.

Definition math_pi : float := 0x1.921fb54442d18p+1%float.

(** [float(i)] for an int in the range the handlers use (0 ≤ i < 2^53). *)
Definition float_of_int (i : Z) : float := PrimFloat.of_uint63 (Uint63.of_Z i).

Section Handlers.

#[local] Set Default Proof Using "Type".

(** The interpreter's and the math library's functions the handlers call:
    [math.sin], [round(x, ndigits)] on floats, and [str] on the values other
    than strings and ObjectIds. *)
Variable math_sin : float → float.
Variable round : float → Z → float.
Variable builtin_str : value → string.

(** [repr] of a string, as ["%r" % s] formats it. *)
Variable py_repr : string → string.

(** bson's InvalidId for a string [s], with its message. *)
Definition invalid_id (s : string) : exn :=
  PyException "InvalidId"
    (py_repr s +:+ " is not a valid ObjectId, it must be a 12-byte input "
     +:+ "or a 24-character hex string").

(** [ObjectId(s)] for a string [s]: a string of 24 characters that
    [bytes.fromhex] accepts, or InvalidId. *)
Definition ObjectId_of_str (s : string) : result ObjectId :=
  if (char_length s =? 24)%nat then
    match bytes_fromhex s with
    | Some o => Return o
    | None => Raise (invalid_id s)
    end
  else Raise (invalid_id s).

Definition py_str (v : value) : string :=
  match v with
  | VStr s => s
  | VOid o => oid_str o
  | _ => builtin_str v
  end.

(** The loop body of the list endpoints:
    [if d.get("_id"): d["id"] = str(d.pop("_id"))]. *)
Definition rename_id (d : doc) : doc :=
  match d !! "_id" with
  | Some v => if truthy v then <["id" := VStr (py_str v)]> (delete "_id" d) else d
  | None => d
  end.

(** [if param: filt[key] = param] for an optional string parameter. *)
Definition filter_on (key : string) (param : option string) (filt : doc) : doc :=
  match param with
  | Some s => if String.eqb s "" then filt else <[key := VStr s]> filt
  | None => filt
  end.

Definition create_forecast (db : database) (oid : ObjectId) (forecast : Forecast)
  : response InsertResponse * database :=
  let '(r, db') := create_document db oid "forecast" forecast in
  (respond (except_500 (inserted_id ← r; mret {| id := inserted_id |})), db').

Definition list_forecasts (db : database) (model variable : option string)
  (limit : option Z) : response (list doc) :=
  match Query "limit" 20 1 200 limit with
  | inl e => e
  | inr limit =>
      respond (except_500 (
        let filt := filter_on "variable" variable (filter_on "model" model ∅) in
        docs ← get_documents db "forecast" filt limit;
        mret (rename_id <$> (docs : list doc))))
  end.

Definition get_forecast (db : database) (forecast_id : string) : response doc :=
  respond (except_500 (
    oid ← ObjectId_of_str forecast_id;
    docs ← get_documents db "forecast" {["_id" := VOid oid]} 1;
    match docs with
    | [] => Raise (HTTPException 404 "Forecast not found")
    | d :: _ =>
        match d !! "_id" with
        | Some v => Return (<["id" := VStr (py_str v)]> (delete "_id" d))
        | None => Raise (PyException "KeyError" "'_id'")
        end
    end)).

Definition create_alert (db : database) (oid : ObjectId) (alert : Alert)
  : response InsertResponse * database :=
  let '(r, db') := create_document db oid "alert" alert in
  (respond (except_500 (inserted_id ← r; mret {| id := inserted_id |})), db').

Definition list_alerts (db : database) (active : option bool) (limit : option Z)
  : response (list doc) :=
  match Query "limit" 50 1 500 limit with
  | inl e => e
  | inr limit =>
      respond (except_500 (
        let filt := match active with
                    | Some b => <["active" := VBool b]> ∅
                    | None => ∅
                    end in
        docs ← get_documents db "alert" filt limit;
        mret (rename_id <$> (docs : list doc))))
  end.

(** The value of the synthetic series at index [i]. *)
Definition series_value (i : Z) : float :=
  let base := (15 + 10 * math_sin (float_of_int i / 24 * 2 * math_pi))%float in
  let noise := (1.5 * math_sin (float_of_int i * 0.7))%float in
  round (base + noise)%float 2.

(** [now] is what [datetime.utcnow()] returns. The handler has no
    try/except: an exception of the date arithmetic leaves it as it is. *)
Definition generate_meteogram (now : datetime) (req : MeteogramRequest)
  : result MeteogramResponse :=
  let start := replace_minute_second_microsecond_0 now in
  times ← mapM (λ i, d ← add_hours start i; mret (isoformat d +:+ "Z")) (seqZ 0 49);
  let series := imap (λ i _, series_value (Z.of_nat i)) times in
  mret {| lat := req_lat req; lon := req_lon req; variable := req_variable req;
          times := times; values := series;
          units := match req_variable req with t2m => "°C" | _ => "units" end |}.

(** The routes with the request validation FastAPI runs before the handler:
    a body that fails its model is answered 422 and the handler is not
    called. *)
Definition body_error {A} (fields : list string) : response A :=
  Error 422 (String.concat "," ((λ f, "body." +:+ f) <$> fields)).

Definition post_api_forecasts (db : database) (oid : ObjectId) (b : ForecastBody)
  : response InsertResponse * database :=
  match validate_forecast b with
  | inl fields => (body_error fields, db)
  | inr forecast => create_forecast db oid forecast
  end.

Definition post_api_alerts (db : database) (oid : ObjectId) (b : AlertBody)
  : response InsertResponse * database :=
  match validate_alert b with
  | inl fields => (body_error fields, db)
  | inr alert => create_alert db oid alert
  end.

Definition post_api_meteogram (now : datetime) (req : MeteogramRequest)
  : response MeteogramResponse :=
  respond (generate_meteogram now req).

(** The calls that write to the store, and a run of them. *)
Inductive write_call :=
  | PostForecast (oid : ObjectId) (b : ForecastBody)
  | PostAlert (oid : ObjectId) (b : AlertBody).

Definition write_step (db : database) (c : write_call) : database :=
  match c with
  | PostForecast oid b => (post_api_forecasts db oid b).2
  | PostAlert oid b => (post_api_alerts db oid b).2
  end.

Definition run_writes (db : database) (calls : list write_call) : database :=
  foldl write_step db calls.

(** The value formula as the specification writes it. *)
Definition spec_value (i : Z) : float :=
  round (15 + 10 * math_sin (float_of_int i / 24 * 2 * math_pi)
         + 1.5 * math_sin (float_of_int i * 0.7))%float 2.

(** A stored document whose bbox is a list of exactly four floats. *)
Definition bbox4 (d : doc) : Prop :=
  ∃ a b c e, d !! "bbox" = Some (VList [VFloat a; VFloat b; VFloat c; VFloat e]).

(** ** Sample inputs, on which the properties below are run *)

(** Stand-ins for the interpreter's functions where a run needs them:
    a sine that is 0 everywhere, a rounding that leaves its argument, and a
    [str] that is never reached on ObjectIds and strings. *)
Definition flat_sin : float → float := λ _, 0%float.
Definition keep_round : float → Z → float := λ x _, x.
Definition blank_str : value → string := λ _, "".

(** [repr] on the strings of the samples, which hold no quote, no backslash
    and only printable ASCII: the string between single quotes. *)
Definition quoting_repr : string → string := λ s, "'" +:+ s +:+ "'".

(** 2024-02-28T22:37:12.000500: the 48 hours ahead cross a leap day. *)
Definition clock_leap : datetime :=
  {| year := 2024; month := 2; day := 28;
     hour := 22; minute := 37; second := 12; microsecond := 500 |}.

Definition clock_new_year : datetime :=
  {| year := 2025; month := 12; day := 31;
     hour := 23; minute := 59; second := 59; microsecond := 0 |}.

Definition req_t2m : MeteogramRequest :=
  {| req_lat := 10; req_lon := 20; req_variable := t2m; req_forecast_id := None |}.

Definition req_precip : MeteogramRequest :=
  {| req_lat := 48.5; req_lon := 2.25; req_variable := precip;
     req_forecast_id := Some "0123456789abcdef01234567" |}.

(** The ObjectId 0123456789abcdef01234567. *)
Definition oid_sample : ObjectId :=
  [H0; H1; H2; H3; H4; H5; H6; H7; H8; H9; Ha; Hb;
   Hc; Hd; He; Hf; H0; H1; H2; H3; H4; H5; H6; H7].

Definition body_sample : ForecastBody :=
  {| body_model := Some "GFS";
     body_init_time := Some "2024-01-01T00:00:00Z";
     body_lead_hours := Some 24;
     body_variable := None;
     body_bbox := Some [2.5; 48; 3.5; 49]%float;
     body_grid_res_km := None;
     body_times := Some ["2024-01-01T01:00:00Z"];
     body_grid := Some [{| gp_lat := 48.5; gp_lon := 3; gp_values := [11.5]%float |}] |}.

Definition forecast_sample : Forecast :=
  {| forecast_model := GFS;
     forecast_init_time := "2024-01-01T00:00:00Z";
     forecast_lead_hours := 24;
     forecast_variable := fv_t2m;
     forecast_bbox := [2.5; 48; 3.5; 49]%float;
     forecast_grid_res_km := 10;
     forecast_times := ["2024-01-01T01:00:00Z"];
     forecast_grid := [{| gp_lat := 48.5; gp_lon := 3; gp_values := [11.5]%float |}] |}.

(** The same body with a bbox of three numbers. *)
Definition body_short_bbox : ForecastBody :=
  {| body_model := Some "GFS";
     body_init_time := Some "2024-01-01T00:00:00Z";
     body_lead_hours := Some 24;
     body_variable := None;
     body_bbox := Some [2.5; 48; 3.5]%float;
     body_grid_res_km := None;
     body_times := Some ["2024-01-01T01:00:00Z"];
     body_grid := Some [] |}.

Definition alert_on : doc :=
  <["_id" := VOid oid_sample]> (<["name" := VStr "heat"]> (<["active" := VBool true]> ∅)).

Definition alert_off : doc :=
  <["name" := VStr "frost"]> (<["active" := VBool false]> ∅).

Definition store_empty : database := Some ∅.

Definition store_alerts : gmap string (list doc) :=
  <["alert" := [alert_on; alert_off]]> ∅.

(** ** The rest of main.py and of schemas.py *)

(** What the class Forecast declares, field by field, read as a condition on
    a request body. *)
Definition forecast_body_ok (b : ForecastBody) : Prop :=
  (∀ s, body_model b = Some s → s ∈ ["WRF"; "GFS"; "ICON"; "ECMWF"])
  ∧ is_Some (body_init_time b)
  ∧ (∃ n, body_lead_hours b = Some n ∧ 1 <= n <= 240)
  ∧ (∀ s, body_variable b = Some s → s ∈ ["t2m"; "u10"; "v10"; "precip"; "mslp"])
  ∧ (∃ l, body_bbox b = Some l ∧ length l = 4%nat)
  ∧ is_Some (body_times b)
  ∧ is_Some (body_grid b).

(** What the class Alert declares. *)
Definition alert_body_ok (b : AlertBody) : Prop :=
  is_Some (abody_name b)
  ∧ (∀ s, abody_variable b = Some s → s ∈ ["t2m"; "precip"; "mslp"])
  ∧ is_Some (abody_threshold b)
  ∧ (∀ s, abody_comparison b = Some s → s ∈ [">="; ">"; "<="; "<"])
  ∧ is_Some (abody_polygon b).

(** The body of POST /api/meteogram as it arrives. *)
Record MeteogramBody := {
  mbody_lat : option float;
  mbody_lon : option float;
  mbody_variable : option string;
  mbody_forecast_id : option string
}.

Definition validate_meteogram (b : MeteogramBody) : list string + MeteogramRequest :=
  let lat := required "lat" Some (mbody_lat b) in
  let lon := required "lon" Some (mbody_lon b) in
  let variable := defaulted "variable" parse_PointVariable t2m (mbody_variable b) in
  match lat, lon, variable with
  | inr la, inr lo, inr v =>
      inr {| req_lat := la; req_lon := lo; req_variable := v;
             req_forecast_id := mbody_forecast_id b |}
  | _, _, _ => inl (errors_of lat ++ errors_of lon ++ errors_of variable)%list
  end.

(** The route POST /api/meteogram with the validation of its body. *)
Definition route_api_meteogram (now : datetime) (b : MeteogramBody)
  : response MeteogramResponse :=
  match validate_meteogram b with
  | inl fields => body_error fields
  | inr req => post_api_meteogram now req
  end.




(** GET / *)
Definition root : doc :=
  {["message" := VStr "Geo-temporal Weather Forecast Platform API"]}.

(** What a query parameter of the forecast listing asks of a document:
    nothing when it is absent or empty, and otherwise the field [key] to be
    that string. *)
Definition param_wanted (key : string) (param : option string) (d : doc) : bool :=
  match param with
  | Some s => if String.eqb s "" then true else field_matches d key (VStr s)
  | None => true
  end.

(** A forecast stored under the sample identifier, and a store that holds
    it. *)
Definition stored_forecast : doc :=
  <["_id" := VOid oid_sample]> (<["model" := VStr "GFS"]> (<["variable" := VStr "t2m"]> ∅)).

Definition stored_forecast_icon : doc :=
  <["model" := VStr "ICON"]> (<["variable" := VStr "t2m"]> ∅).

Definition store_forecasts : gmap string (list doc) :=
  <["forecast" := [stored_forecast_icon; stored_forecast]]> ∅.

(** More sample inputs. *)
Definition alert_body_sample : AlertBody :=
  {| abody_name := Some "heat";
     abody_variable := None;
     abody_threshold := Some 35%float;
     abody_comparison := None;
     abody_polygon := Some [[2; 48]; [3; 48]; [3; 49]]%float;
     abody_active := None |}.

Definition alert_sample : Alert :=
  {| alert_name := "heat"; alert_variable := t2m; alert_threshold := 35;
     alert_comparison := cmp_ge;
     alert_polygon := [[2; 48]; [3; 48]; [3; 49]]%float;
     alert_active := true |}.

Definition meteogram_body_sample : MeteogramBody :=
  {| mbody_lat := Some 10%float; mbody_lon := Some 20%float;
     mbody_variable := Some "mslp"; mbody_forecast_id := Some "not-an-id" |}.

(** 9999-12-30T05:00: the 48 hours ahead leave the calendar. *)
Definition clock_last_days : datetime :=
  {| year := 9999; month := 12; day := 30;
     hour := 5; minute := 0; second := 0; microsecond := 0 |}.

(** A stored document that carries a field "id" of its own. *)
Definition doc_with_id : doc :=
  <["_id" := VOid oid_sample]> (<["id" := VInt 7]> (<["name" := VStr "x"]> ∅)).

(** * Properties *)

(** ** The error monad *)

Lemma mapM_Return {A B} (f : A → result B) (g : A → B) (l : list A) :
  (∀ x, x ∈ l → f x = Return (g x)) → mapM f l = Return (g <$> l).
Proof.
  induction l as [|x l IH]; intros Hf; [reflexivity|].
  cbn. rewrite (Hf x) by left. cbn.
  rewrite IH by (intros y Hy; apply Hf; by right). reflexivity.
Qed.

Lemma mapM_Return_length {A B} (f : A → result B) (l : list A) (k : list B) :
  mapM f l = Return k → length k = length l.
Proof.
  revert k. induction l as [|x l IH]; intros k; cbn.
  - intros [= <-]. reflexivity.
  - destruct (f x) as [y|e]; cbn; [|discriminate].
    destruct (mapM f l) as [k'|e]; cbn; [|discriminate].
    intros [= <-]. cbn. f_equal. by apply IH.
Qed.

(** ** ObjectId and its string form *)







(** ** Filters *)

Lemma value_eqb_VOid (o : ObjectId) (v : value) :
  value_eqb (VOid o) v = true ↔ v = VOid o.
Proof.
  destruct v; cbn; try (split; [discriminate|by intros [=]]).
  rewrite bool_decide_eq_true. split; [by intros ->|by intros [= ->]].
Qed.

Lemma value_eqb_VBool (b : bool) (v : value) :
  value_eqb (VBool b) v = true ↔ v = VBool b.
Proof.
  destruct v as [|b'| | | | | |]; cbn; try (split; [discriminate|by intros [=]]).
  destruct b, b'; cbn; split; (done || by intros [=]).
Qed.

Lemma matches_empty (d : doc) : matches ∅ d = true.
Proof. unfold matches. by rewrite map_to_list_empty. Qed.

Lemma matches_singleton (k : string) (v : value) (d : doc) :
  matches {[k := v]} d = field_matches d k v.
Proof.
  unfold matches. rewrite map_to_list_singleton. cbn. by rewrite andb_true_r.
Qed.

Lemma default_lookup_insert (colls : gmap string (list doc)) (name : string)
  (l : list doc) :
  default [] (<[name := l]> colls !! name) = l.
Proof. by rewrite lookup_insert_eq. Qed.

Lemma filter_no_match {A} (f : A → bool) (l : list A) :
  existsb f l = false → List.filter f l = [].
Proof.
  induction l as [|x l IH]; cbn; [done|].
  destruct (f x); cbn; [discriminate|]. exact IH.
Qed.

Lemma filter_true {A} (l : list A) : List.filter (λ _, true) l = l.
Proof. induction l as [|x l IH]; cbn; [done|]. by rewrite IH. Qed.

(** ** The calendar *)

Lemma days_before_year_nonneg (y : Z) : 1 <= y → 0 <= days_before_year y.
Proof.
  intros Hy. unfold days_before_year. cbv zeta.
  assert (0 <= (y - 1) / 400) by (apply Z.div_pos; lia).
  assert ((y - 1) / 100 <= (y - 1) / 4)
    by (apply Z.div_le_compat_l; lia).
  lia.
Qed.

Lemma days_before_month_nonneg (y m : Z) : 0 <= days_before_month y m.
Proof.
  unfold days_before_month.
  assert (0 <= DAYS_BEFORE_MONTH m).
  { destruct m as [|p|p]; cbn; try lia.
    do 4 (try destruct p as [p|p|]); cbn; lia. }
  destruct (_ && _); lia.
Qed.

Lemma toordinal_pos (d : datetime) : valid_datetime d → 1 <= toordinal d.
Proof.
  intros (Hy & Hm & Hd & _). unfold toordinal, ymd2ord.
  pose proof (days_before_year_nonneg (year d)).
  pose proof (days_before_month_nonneg (year d) (month d)). lia.
Qed.

(** On a clock that reads at most 9999-12-29, the 49 additions of
    generate_meteogram stay in range. *)
Lemma add_hours_start (now : datetime) (i : Z) :
  valid_datetime now → toordinal now + 2 <= MAXORDINAL → 0 <= i <= 48 →
  add_hours (replace_minute_second_microsecond_0 now) i
  = Return (plus_hours (replace_minute_second_microsecond_0 now) i).
Proof.
  intros Hv Hmax Hi. pose proof (toordinal_pos now Hv) as Hpos.
  destruct Hv as (_ & _ & _ & Hh & _).
  unfold add_hours. cbn [hour minute second replace_minute_second_microsecond_0].
  change (toordinal (replace_minute_second_microsecond_0 now)) with (toordinal now).
  set (secs := hour now * 3600 + 0 * 60 + 0 + i * 3600).
  assert (0 <= secs / 86400 <= 2) as Hq.
  { subst secs. split.
    - apply Z.div_pos; lia.
    - apply Z.lt_succ_r. apply Z.div_lt_upper_bound; lia. }
  destruct (0 <? _) eqn:E1; [|apply Z.ltb_ge in E1; lia].
  destruct (_ <=? _) eqn:E2; [|apply Z.leb_gt in E2; lia].
  reflexivity.
Qed.

(** ** The meteogram *)

Lemma imap_index_only {A B} (g : nat → B) (l : list A) :
  imap (λ i _, g i) l = g <$> seq 0 (length l).
Proof.
  revert g. induction l as [|x l IH]; intros g; [reflexivity|].
  cbn [imap length seq fmap list_fmap]. f_equal.
  rewrite <- fmap_S_seq, <- list_fmap_compose. apply (IH (g ∘ S)).
Qed.

Lemma generate_meteogram_values (now : datetime) (req : MeteogramRequest)
  (r : MeteogramResponse) :
  generate_meteogram now req = Return r →
  values r = (λ i, series_value (Z.of_nat i)) <$> seq 0 49.
Proof.
  unfold generate_meteogram.
  destruct (mapM _ (seqZ 0 49)) as [ts|e] eqn:E; [|discriminate].
  apply mapM_Return_length in E. rewrite length_seqZ in E.
  intros [= <-]. cbn [values]. rewrite imap_index_only, E. reflexivity.
Qed.

Lemma generate_meteogram_Return (now : datetime) (req : MeteogramRequest) :
  valid_datetime now → toordinal now + 2 <= MAXORDINAL →
  let start := replace_minute_second_microsecond_0 now in
  let ts := (λ i, isoformat (plus_hours start i) +:+ "Z") <$> seqZ 0 49 in
  generate_meteogram now req
  = Return {| lat := req_lat req; lon := req_lon req;
              variable := req_variable req; times := ts;
              values := imap (λ i _, series_value (Z.of_nat i)) ts;
              units := match req_variable req with t2m => "°C" | _ => "units" end |}.
Proof.
  intros Hv Hmax start ts. unfold generate_meteogram.
  rewrite (mapM_Return _ (λ i, isoformat (plus_hours start i) +:+ "Z")).
  - reflexivity.
  - intros i Hi. apply elem_of_seqZ in Hi.
    rewrite (add_hours_start now i) by (done || lia). reflexivity.
Qed.

(** C1: a request for "t2m" is answered with 49 timestamps, 49 values and the
    units "°C"; the value at every index i of 0..48 is
    round(15 + 10*sin(i/24 * 2*pi) + 1.5*sin(i*0.7), 2), and the first value
    is 15.0 (given that sin(0.0) is 0.0 and that rounding 15.0 to two places
    leaves it). The clock is assumed to read a date at most 9999-12-29, so
    that the 48 hours ahead exist. *)
Theorem meteogram_t2m (now : datetime) (req : MeteogramRequest) :
  valid_datetime now → toordinal now + 2 <= MAXORDINAL →
  req_variable req = t2m →
  ∃ r, post_api_meteogram now req = Body r
    ∧ length (times r) = 49%nat
    ∧ length (values r) = 49%nat
    ∧ units r = "°C"
    ∧ (∀ i, 0 <= i <= 48 → values r !! Z.to_nat i = Some (spec_value i))
    ∧ (math_sin 0%float = 0%float → round 15%float 2 = 15%float →
       values r !! 0%nat = Some 15%float).
Proof.
  intros Hv Hmax Hvar. eexists. unfold post_api_meteogram.
  rewrite generate_meteogram_Return by done. cbn [respond].
  split; [reflexivity|]. cbn [times values units].
  assert (∀ i, 0 <= i <= 48 →
    imap (λ (i : nat) (_ : string), series_value (Z.of_nat i))
      ((λ i, isoformat (plus_hours (replace_minute_second_microsecond_0 now) i)
             +:+ "Z") <$> seqZ 0 49) !! Z.to_nat i = Some (spec_value i)) as Hval.
  { intros i Hi. rewrite list_lookup_imap, list_lookup_fmap.
    rewrite lookup_seqZ_lt by lia. cbn. rewrite Z2Nat.id by lia. reflexivity. }
  split; [|split; [|split; [|split]]].
  - by rewrite length_fmap, length_seqZ.
  - by rewrite length_imap, length_fmap, length_seqZ.
  - by rewrite Hvar.
  - exact Hval.
  - intros Hsin Hround. pose proof (Hval 0 ltac:(lia)) as H0.
    change (Z.to_nat 0) with 0%nat in H0. rewrite H0. f_equal.
    unfold spec_value.
    replace (float_of_int 0 / 24 * 2 * math_pi)%float with 0%float by reflexivity.
    replace (float_of_int 0 * 0.7)%float with 0%float by reflexivity.
    rewrite Hsin.
    replace (15 + 10 * 0 + 1.5 * 0)%float with 15%float by reflexivity.
    exact Hround.
Qed.

(** C5: the value sequences of any two answered meteogram requests are the
    same, whatever the requests' lat, lon, variable and forecast_id and
    whatever the clock read at each. *)
Theorem meteogram_values_independent (now1 now2 : datetime)
  (req1 req2 : MeteogramRequest) (r1 r2 : MeteogramResponse) :
  post_api_meteogram now1 req1 = Body r1 →
  post_api_meteogram now2 req2 = Body r2 →
  values r1 = values r2.
Proof.
  unfold post_api_meteogram. intros H1 H2.
  destruct (generate_meteogram now1 req1) as [a1|[]] eqn:E1; try discriminate.
  destruct (generate_meteogram now2 req2) as [a2|[]] eqn:E2; try discriminate.
  injection H1 as ->. injection H2 as ->.
  rewrite (generate_meteogram_values _ _ _ E1).
  rewrite (generate_meteogram_values _ _ _ E2). reflexivity.
Qed.

(** C8: with start the clock's reading with minute, second and microsecond
    set to zero, the answer's times are 49 entries, the entry at index i of
    0..48 being the ISO format of start + i hours followed by "Z". The clock
    is assumed to read a date at most 9999-12-29. *)
Theorem meteogram_times (now : datetime) (req : MeteogramRequest) :
  valid_datetime now → toordinal now + 2 <= MAXORDINAL →
  let start := replace_minute_second_microsecond_0 now in
  ∃ r, post_api_meteogram now req = Body r
    ∧ length (times r) = 49%nat
    ∧ ∀ i, 0 <= i <= 48 →
        ∃ d, add_hours start i = Return d
           ∧ times r !! Z.to_nat i = Some (isoformat d +:+ "Z").
Proof.
  intros Hv Hmax start. eexists. unfold post_api_meteogram.
  rewrite generate_meteogram_Return by done. cbn [respond].
  split; [reflexivity|]. cbn [times]. split.
  - by rewrite length_fmap, length_seqZ.
  - intros i Hi. exists (plus_hours start i). split.
    + by apply add_hours_start.
    + rewrite list_lookup_fmap, lookup_seqZ_lt by lia. cbn.
      rewrite Z2Nat.id by lia. reflexivity.
Qed.

(** ** The list endpoints *)

Lemma rename_id_other (d : doc) (k : string) :
  k ≠ "_id" → k ≠ "id" → rename_id d !! k = d !! k.
Proof.
  intros H1 H2. unfold rename_id.
  destruct (d !! "_id") as [v|]; [|done].
  destruct (truthy v); [|done].
  by rewrite lookup_insert_ne, lookup_delete_ne.
Qed.

Lemma list_forecasts_in_range (db : database) (model variable : option string)
  (limit : option Z) :
  1 <= default 20 limit <= 200 →
  list_forecasts db model variable limit
  = respond (except_500 (
      docs ← get_documents db "forecast"
               (filter_on "variable" variable (filter_on "model" model ∅))
               (default 20 limit);
      mret (rename_id <$> (docs : list doc)))).
Proof.
  intros Hn. unfold list_forecasts, Query. destruct limit as [n|]; [|done].
  cbn in Hn. destruct (1 <=? n) eqn:E1; [|apply Z.leb_gt in E1; lia].
  destruct (n <=? 200) eqn:E2; [|apply Z.leb_gt in E2; lia]. reflexivity.
Qed.

Lemma list_alerts_in_range (db : database) (active : option bool)
  (limit : option Z) :
  1 <= default 50 limit <= 500 →
  list_alerts db active limit
  = respond (except_500 (
      docs ← get_documents db "alert"
               (match active with
                | Some b => <["active" := VBool b]> ∅
                | None => ∅
                end)
               (default 50 limit);
      mret (rename_id <$> (docs : list doc)))).
Proof.
  intros Hn. unfold list_alerts, Query. destruct limit as [n|]; [|done].
  cbn in Hn. destruct (1 <=? n) eqn:E1; [|apply Z.leb_gt in E1; lia].
  destruct (n <=? 500) eqn:E2; [|apply Z.leb_gt in E2; lia]. reflexivity.
Qed.

Lemma get_documents_length (db : database) (name : string) (filt : doc)
  (limit : Z) (docs : list doc) :
  get_documents db name filt limit = Return docs →
  (length docs <= Z.to_nat limit)%nat ∧ ∀ d, d ∈ docs → d ∈ collection db name.
Proof.
  unfold get_documents, collection. destruct db as [colls|]; [|discriminate].
  intros [= <-]. split.
  - rewrite length_take. lia.
  - intros d Hd. apply subseteq_take in Hd.
    apply list_elem_of_In, filter_In in Hd as [Hd _]. by apply list_elem_of_In.
Qed.

(** C2, as the code has it: a limit outside 1..200 (forecasts) or 1..500
    (alerts) is refused with a 422 validation error; a limit within the range
    is used as given: it is the limit the store is asked with, so that on an
    available store the answer is the first [limit] matching records, all of
    them when fewer match, and never more than [limit]; an omitted limit is 20
    for forecasts and 50 for alerts. *)
Theorem limit_validated (db : database) (model variable : option string)
  (active : option bool) (n : Z) :
  list_forecasts db model variable None = list_forecasts db model variable (Some 20)
  ∧ list_alerts db active None = list_alerts db active (Some 50)
  ∧ (¬ 1 <= n <= 200 →
     list_forecasts db model variable (Some n) = Error 422 "query.limit")
  ∧ (¬ 1 <= n <= 500 →
     list_alerts db active (Some n) = Error 422 "query.limit")
  ∧ (1 <= n <= 200 → ∀ docs,
     list_forecasts db model variable (Some n) = Body docs → Z.of_nat (length docs) <= n)
  ∧ (1 <= n <= 500 → ∀ docs,
     list_alerts db active (Some n) = Body docs → Z.of_nat (length docs) <= n)
  ∧ (1 <= n <= 200 →
     list_forecasts db model variable (Some n)
     = respond (except_500 (
         docs ← get_documents db "forecast"
                  (filter_on "variable" variable (filter_on "model" model ∅)) n;
         mret (rename_id <$> (docs : list doc)))))
  ∧ (1 <= n <= 500 →
     list_alerts db active (Some n)
     = respond (except_500 (
         docs ← get_documents db "alert"
                  (match active with
                   | Some b => <["active" := VBool b]> ∅
                   | None => ∅
                   end) n;
         mret (rename_id <$> (docs : list doc)))))
  ∧ (1 <= n <= 200 → ∀ colls, db = Some colls →
     ∃ found,
       found = List.filter
                 (matches (filter_on "variable" variable (filter_on "model" model ∅)))
                 (default [] (colls !! "forecast"))
       ∧ list_forecasts db model variable (Some n)
         = Body (rename_id <$> take (Z.to_nat n) found)
       ∧ length (rename_id <$> take (Z.to_nat n) found)
         = Nat.min (Z.to_nat n) (length found))
  ∧ (1 <= n <= 500 → ∀ colls, db = Some colls →
     ∃ found,
       found = List.filter
                 (matches (match active with
                           | Some b => <["active" := VBool b]> ∅
                           | None => ∅
                           end))
                 (default [] (colls !! "alert"))
       ∧ list_alerts db active (Some n)
         = Body (rename_id <$> take (Z.to_nat n) found)
       ∧ length (rename_id <$> take (Z.to_nat n) found)
         = Nat.min (Z.to_nat n) (length found)).
Proof.
  split; [reflexivity|]. split; [reflexivity|].
  split; [|split; [|split; [|split; [|split; [|split; [|split]]]]]];
    [| | | |
     intros Hn; by rewrite list_forecasts_in_range
    |intros Hn; by rewrite list_alerts_in_range
    |intros Hn colls ->; eexists; split; [reflexivity|];
     split; [by rewrite list_forecasts_in_range|];
     by rewrite length_fmap, length_take
    |intros Hn colls ->; eexists; split; [reflexivity|];
     split; [by rewrite list_alerts_in_range|];
     by rewrite length_fmap, length_take].
  - intros Hn. unfold list_forecasts, Query.
    destruct (1 <=? n) eqn:E1; [|done].
    destruct (n <=? 200) eqn:E2; [|done].
    apply Z.leb_le in E1. apply Z.leb_le in E2. exfalso. lia.
  - intros Hn. unfold list_alerts, Query.
    destruct (1 <=? n) eqn:E1; [|done].
    destruct (n <=? 500) eqn:E2; [|done].
    apply Z.leb_le in E1. apply Z.leb_le in E2. exfalso. lia.
  - intros Hn docs. rewrite list_forecasts_in_range by done. cbn [default].
    destruct (get_documents _ _ _ _) as [raw|e] eqn:E; [|discriminate].
    cbn. intros [= <-]. apply get_documents_length in E as [E _].
    rewrite length_fmap. unfold Datatypes.id in E. lia.
  - intros Hn docs. rewrite list_alerts_in_range by done. cbn [default].
    destruct (get_documents _ _ _ _) as [raw|e] eqn:E; [|discriminate].
    cbn. intros [= <-]. apply get_documents_length in E as [E _].
    rewrite length_fmap. unfold Datatypes.id in E. lia.
Qed.

(** C7: on every state of the alert collection, a listing with active=b
    returns the first records (up to the limit) whose active flag is b, and
    only such records; a listing without the parameter returns the first
    records of the collection whatever their flag. *)
Theorem list_alerts_filter (colls : gmap string (list doc)) (limit : option Z) :
  1 <= default 50 limit <= 500 →
  let n := Z.to_nat (default 50 limit) in
  let alerts := default [] (colls !! "alert") in
  (∀ b, ∃ docs,
     list_alerts (Some colls) (Some b) limit = Body docs
     ∧ docs = rename_id <$>
                take n (List.filter (λ d, field_matches d "active" (VBool b)) alerts)
     ∧ ∀ d, d ∈ docs → d !! "active" = Some (VBool b))
  ∧ list_alerts (Some colls) None limit = Body (rename_id <$> take n alerts).
Proof.
  intros Hn n alerts. split.
  - intros b. eexists. rewrite list_alerts_in_range by done.
    unfold get_documents. cbn [mbind result_bind mret result_ret except_500 respond].
    rewrite insert_empty.
    rewrite (filter_ext _ _ (matches_singleton "active" (VBool b))).
    split; [reflexivity|]. split; [reflexivity|].
    intros d (d0 & -> & Hd0)%list_elem_of_fmap.
    apply subseteq_take in Hd0.
    apply list_elem_of_In, filter_In in Hd0 as [_ Hm].
    rewrite rename_id_other by done.
    unfold field_matches in Hm. destruct (d0 !! "active") as [v|]; [|done].
    apply value_eqb_VBool in Hm. by subst.
  - rewrite list_alerts_in_range by done.
    unfold get_documents. cbn [mbind result_bind mret result_ret except_500 respond].
    rewrite (filter_ext _ _ matches_empty), filter_true. reflexivity.
Qed.

(** C9: an empty model or variable parameter of the forecast listing is the
    same as no parameter: the field is left out of the filter, and the
    answer is the one given without the parameter. *)
Theorem empty_parameter_as_absent (db : database) (model variable : option string)
  (limit : option Z) (key : string) (filt : doc) :
  filter_on key (Some "") filt = filter_on key None filt
  ∧ filter_on key None filt = filt
  ∧ list_forecasts db (Some "") variable limit = list_forecasts db None variable limit
  ∧ list_forecasts db model (Some "") limit = list_forecasts db model None limit.
Proof. repeat split; reflexivity. Qed.

(** C10: the renaming step of the list endpoints touches the identifier
    fields only. With a truthy "_id", that field is removed and "id" holds its
    string form; with "_id" absent or falsy the document is unchanged; every
    field other than "_id" and "id" keeps its value. Every document the list
    endpoints return is a stored document after this step. *)
Theorem rename_id_frame (d : doc) :
  (∀ v, d !! "_id" = Some v → truthy v = true →
     rename_id d !! "_id" = None ∧ rename_id d !! "id" = Some (VStr (py_str v)))
  ∧ (∀ v, d !! "_id" = Some v → truthy v = false → rename_id d = d)
  ∧ (d !! "_id" = None → rename_id d = d)
  ∧ (∀ k, k ≠ "_id" → k ≠ "id" → rename_id d !! k = d !! k)
  ∧ (∀ db model variable limit docs,
       list_forecasts db model variable limit = Body docs →
       ∃ raw, docs = rename_id <$> raw ∧ ∀ x, x ∈ raw → x ∈ collection db "forecast")
  ∧ (∀ db active limit docs,
       list_alerts db active limit = Body docs →
       ∃ raw, docs = rename_id <$> raw ∧ ∀ x, x ∈ raw → x ∈ collection db "alert").
Proof.
  split; [|split; [|split; [|split; [|split]]]].
  - intros v Hv Ht. unfold rename_id. rewrite Hv, Ht.
    rewrite lookup_insert_ne by done. by rewrite lookup_delete_eq, lookup_insert_eq.
  - intros v Hv Ht. unfold rename_id. by rewrite Hv, Ht.
  - intros Hv. unfold rename_id. by rewrite Hv.
  - apply rename_id_other.
  - intros db model variable limit docs. unfold list_forecasts, Query.
    destruct limit as [m|]; [destruct (_ && _); [|discriminate]|];
      (destruct (get_documents _ _ _ _) as [raw|e] eqn:E; [|discriminate];
       cbn; intros [= <-]; exists raw; split; [done|];
       by apply get_documents_length in E as [_ E]).
  - intros db active limit docs. unfold list_alerts, Query.
    destruct limit as [m|]; [destruct (_ && _); [|discriminate]|];
      (destruct (get_documents _ _ _ _) as [raw|e] eqn:E; [|discriminate];
       cbn; intros [= <-]; exists raw; split; [done|];
       by apply get_documents_length in E as [_ E]).
Qed.

(** ** Single forecasts *)

Lemma model_dump_forecast_no_id (f : Forecast) :
  model_dump f !! "_id" = None ∧ model_dump f !! "id" = None.
Proof. split; reflexivity. Qed.

Lemma model_dump_forecast_bbox (f : Forecast) :
  model_dump f !! "bbox" = Some (VList (VFloat <$> forecast_bbox f)).
Proof. reflexivity. Qed.


(** C3 on the code: for a well-formed identifier that no stored forecast
    carries, the 404 raised inside the try block is caught by the handler's
    own [except Exception] and answered as a 500 whose detail is the text of
    the 404. *)
Theorem get_forecast_absent_is_500 (colls : gmap string (list doc))
  (forecast_id : string) (oid : ObjectId) :
  ObjectId_of_str forecast_id = Return oid →
  existsb (λ d, field_matches d "_id" (VOid oid))
    (default [] (colls !! "forecast")) = false →
  get_forecast (Some colls) forecast_id = Error 500 "404: Forecast not found".
Proof.
  intros Hid Habsent. unfold get_forecast, get_documents. rewrite Hid.
  cbn [mbind result_bind].
  rewrite (filter_ext _ _ (matches_singleton "_id" (VOid oid))).
  rewrite (filter_no_match _ _ Habsent). reflexivity.
Qed.


(** ** Validation of the bounding box *)

Lemma validate_forecast_bbox (b : ForecastBody) (forecast : Forecast) :
  validate_forecast b = inr forecast →
  body_bbox b = Some (forecast_bbox forecast)
  ∧ length (forecast_bbox forecast) = 4%nat.
Proof.
  unfold validate_forecast.
  destruct (defaulted "model" _ _ _); [discriminate|].
  destruct (required "init_time" _ _); [discriminate|].
  destruct (required "lead_hours" _ _); [discriminate|].
  destruct (defaulted "variable" _ _ _); [discriminate|].
  destruct (required "bbox" _ _) as [|bb] eqn:Hbb; [discriminate|].
  destruct (defaulted "grid_res_km" _ _ _); [discriminate|].
  destruct (required "times" _ _); [discriminate|].
  destruct (required "grid" _ _); [discriminate|].
  intros [= <-]. cbn [forecast_bbox].
  unfold required, check_items in Hbb.
  destruct (body_bbox b) as [box|]; [|discriminate].
  destruct (_ && _) eqn:E; [|discriminate]. injection Hbb as <-.
  apply andb_true_iff in E as [E1 E2].
  apply Nat.leb_le in E1. apply Nat.leb_le in E2. split; [done|lia].
Qed.

Lemma bbox4_model_dump (oid : ObjectId) (forecast : Forecast) :
  length (forecast_bbox forecast) = 4%nat →
  bbox4 (<["_id" := VOid oid]> (model_dump forecast)).
Proof.
  intros Hlen. unfold bbox4. rewrite lookup_insert_ne by done.
  rewrite model_dump_forecast_bbox.
  destruct (forecast_bbox forecast) as [|a [|b [|c [|e [|x l]]]]]; try discriminate.
  by exists a, b, c, e.
Qed.

Lemma write_step_bbox4 (db : database) (c : write_call) :
  Forall bbox4 (collection db "forecast") →
  Forall bbox4 (collection (write_step db c) "forecast").
Proof.
  intros Hinv. destruct c as [oid b|oid b]; cbn [write_step].
  - unfold post_api_forecasts.
    destruct (validate_forecast b) as [errs|forecast] eqn:Hv; [done|].
    apply validate_forecast_bbox in Hv as [_ Hlen].
    unfold create_forecast, create_document. destruct db as [colls|]; [|done].
    destruct (existsb _ _); [done|]. cbn [snd collection] in *.
    rewrite default_lookup_insert.
    apply Forall_app. split; [done|].
    constructor; [by apply bbox4_model_dump|constructor].
  - unfold post_api_alerts.
    destruct (validate_alert b) as [errs|alert]; [done|].
    unfold create_alert, create_document. destruct db as [colls|]; [|done].
    destruct (existsb _ _); [done|]. cbn [snd collection] in *.
    by rewrite lookup_insert_ne.
Qed.

Lemma run_writes_bbox4 (db : database) (calls : list write_call) :
  Forall bbox4 (collection db "forecast") →
  Forall bbox4 (collection (run_writes db calls) "forecast").
Proof.
  revert db. induction calls as [|c calls IH]; intros db Hinv; [done|].
  cbn. apply IH. by apply write_step_bbox4.
Qed.

(** C6: a Forecast payload whose bbox is missing or has a length other than
    4 is refused by validation with a 422 and the store is left as it was;
    so every forecast record written through the API, starting from an empty
    store, has a bbox of exactly four floats. *)
Theorem bbox_length_enforced :
  (∀ db oid b, (∀ l, body_bbox b = Some l → length l ≠ 4%nat) →
     ∃ fields, validate_forecast b = inl fields
       ∧ "bbox" ∈ fields
       ∧ post_api_forecasts db oid b = (body_error fields, db))
  ∧ (∀ calls, Forall bbox4 (collection (run_writes (Some ∅) calls) "forecast")).
Proof.
  split.
  - intros db oid b Hbad. unfold post_api_forecasts.
    destruct (validate_forecast b) as [fields|forecast] eqn:Hv.
    + exists fields. split; [done|]. split; [|done].
      unfold validate_forecast in Hv.
      assert (required "bbox" (check_items 4 4) (body_bbox b) = inl ["bbox"]) as Hbb.
      { unfold required, check_items. destruct (body_bbox b) as [l|]; [|done].
        specialize (Hbad l eq_refl).
        destruct (4 <=? length l)%nat eqn:E1; [|done].
        destruct (length l <=? 4)%nat eqn:E2; [|done].
        apply Nat.leb_le in E1. apply Nat.leb_le in E2. lia. }
      rewrite Hbb in Hv. cbn [errors_of] in Hv. clear -Hv.
      repeat case_match; simplify_eq/=; set_solver.
    + apply validate_forecast_bbox in Hv as [Hb Hlen]. by destruct (Hbad _ Hb).
  - intros calls. apply run_writes_bbox4. cbn. constructor.
Qed.

(** * Further properties of the code *)

(** ** Validation (schemas.py) *)

Lemma parse_literal_spelling {A} (spell : A → string) (members : list A)
  (s : string) (a : A) :
  parse_literal spell members s = Some a → spell a = s.
Proof.
  unfold parse_literal. intros H. apply find_some in H as [_ H].
  by apply String.eqb_eq in H.
Qed.

Lemma required_inr {A B} (name : string) (check : A → option B) (x : option A)
  (v : B) :
  required name check x = inr v ↔ ∃ a, x = Some a ∧ check a = Some v.
Proof.
  unfold required. destruct x as [a|].
  - destruct (check a) as [w|] eqn:E.
    + split; [intros [= <-]; eauto|]. intros (a' & [= <-] & Hc).
      rewrite E in Hc. by injection Hc as <-.
    + split; [discriminate|]. intros (a' & [= <-] & Hc). congruence.
  - split; [discriminate|]. by intros (a' & [=] & _).
Qed.

Lemma defaulted_inr {A B} (name : string) (check : A → option B) (dflt : B)
  (x : option A) (v : B) :
  defaulted name check dflt x = inr v
  ↔ (x = None ∧ v = dflt) ∨ ∃ a, x = Some a ∧ check a = Some v.
Proof.
  unfold defaulted. destruct x as [a|].
  - destruct (check a) as [w|] eqn:E.
    + split; [intros [= <-]; eauto|]. intros [[[=] _]|(a' & [= <-] & Hc)].
      rewrite E in Hc. by injection Hc as <-.
    + split; [discriminate|]. intros [[[=] _]|(a' & [= <-] & Hc)]. congruence.
  - split; [intros [= <-]; by left|]. intros [[_ ->]|(a' & [=] & _)]. done.
Qed.

Lemma check_range_Some (lo hi n v : Z) :
  check_range lo hi n = Some v ↔ v = n ∧ lo <= n <= hi.
Proof.
  unfold check_range. destruct (lo <=? n) eqn:E1; destruct (n <=? hi) eqn:E2; cbn;
    try apply Z.leb_le in E1; try apply Z.leb_le in E2;
    try apply Z.leb_gt in E1; try apply Z.leb_gt in E2;
    (split; [intros [= <-]; (split; [done|lia]) || lia|intros [-> ?]; (done || lia)]).
Qed.

Lemma check_items_Some {A} (lo hi : nat) (l v : list A) :
  check_items lo hi l = Some v ↔ v = l ∧ (lo <= length l <= hi)%nat.
Proof.
  unfold check_items.
  destruct (lo <=? length l)%nat eqn:E1; destruct (length l <=? hi)%nat eqn:E2; cbn;
    try apply Nat.leb_le in E1; try apply Nat.leb_le in E2;
    try apply Nat.leb_gt in E1; try apply Nat.leb_gt in E2;
    (split; [intros [= <-]; (split; [done|lia]) || lia|intros [-> ?]; (done || lia)]).
Qed.

Lemma validate_forecast_inr (b : ForecastBody) (f : Forecast) :
  validate_forecast b = inr f
  ↔ defaulted "model" parse_ModelName WRF (body_model b) = inr (forecast_model f)
    ∧ required "init_time" Some (body_init_time b) = inr (forecast_init_time f)
    ∧ required "lead_hours" (check_range 1 240) (body_lead_hours b)
      = inr (forecast_lead_hours f)
    ∧ defaulted "variable" parse_ForecastVariable fv_t2m (body_variable b)
      = inr (forecast_variable f)
    ∧ required "bbox" (check_items 4 4) (body_bbox b) = inr (forecast_bbox f)
    ∧ defaulted "grid_res_km" Some 10%float (body_grid_res_km b)
      = inr (forecast_grid_res_km f)
    ∧ required "times" Some (body_times b) = inr (forecast_times f)
    ∧ required "grid" Some (body_grid b) = inr (forecast_grid f).
Proof.
  unfold validate_forecast.
  destruct (defaulted "model" _ _ _); [split; [discriminate|by intros [[=] _]]|].
  destruct (required "init_time" _ _);
    [split; [discriminate|by intros (_ & [=] & _)]|].
  destruct (required "lead_hours" _ _);
    [split; [discriminate|by intros (_ & _ & [=] & _)]|].
  destruct (defaulted "variable" _ _ _);
    [split; [discriminate|by intros (_ & _ & _ & [=] & _)]|].
  destruct (required "bbox" _ _);
    [split; [discriminate|by intros (_ & _ & _ & _ & [=] & _)]|].
  destruct (defaulted "grid_res_km" _ _ _);
    [split; [discriminate|by intros (_ & _ & _ & _ & _ & [=] & _)]|].
  destruct (required "times" _ _);
    [split; [discriminate|by intros (_ & _ & _ & _ & _ & _ & [=] & _)]|].
  destruct (required "grid" _ _);
    [split; [discriminate|by intros (_ & _ & _ & _ & _ & _ & _ & [=])]|].
  split.
  - intros [= <-]. cbn. done.
  - destruct f. cbn. intros (? & ? & ? & ? & ? & ? & ? & ?). by simplify_eq.
Qed.

Lemma validate_alert_inr (b : AlertBody) (a : Alert) :
  validate_alert b = inr a
  ↔ required "name" Some (abody_name b) = inr (alert_name a)
    ∧ defaulted "variable" parse_PointVariable t2m (abody_variable b)
      = inr (alert_variable a)
    ∧ required "threshold" Some (abody_threshold b) = inr (alert_threshold a)
    ∧ defaulted "comparison" parse_Comparison cmp_ge (abody_comparison b)
      = inr (alert_comparison a)
    ∧ required "polygon" Some (abody_polygon b) = inr (alert_polygon a)
    ∧ defaulted "active" Some true (abody_active b) = inr (alert_active a).
Proof.
  unfold validate_alert.
  destruct (required "name" _ _); [split; [discriminate|by intros [[=] _]]|].
  destruct (defaulted "variable" _ _ _);
    [split; [discriminate|by intros (_ & [=] & _)]|].
  destruct (required "threshold" _ _);
    [split; [discriminate|by intros (_ & _ & [=] & _)]|].
  destruct (defaulted "comparison" _ _ _);
    [split; [discriminate|by intros (_ & _ & _ & [=] & _)]|].
  destruct (required "polygon" _ _);
    [split; [discriminate|by intros (_ & _ & _ & _ & [=] & _)]|].
  destruct (defaulted "active" _ _ _);
    [split; [discriminate|by intros (_ & _ & _ & _ & _ & [=])]|].
  split.
  - intros [= <-]. cbn. done.
  - destruct a. cbn. intros (? & ? & ? & ? & ? & ?). by simplify_eq.
Qed.



(** Case analysis on the membership of a string in a list of literals. *)
Ltac literal_cases H :=
  apply list_elem_of_In in H; cbn in H;
  repeat (destruct H as [<-|H]); [..|destruct H].

(** X1: the Literal fields are matched by exact spelling. Each member is
    accepted under its own spelling, and an accepted string is the spelling of
    the member it is read as; so lower-case "wrf" is no model. *)
Theorem literal_round_trip :
  (∀ m, parse_ModelName (str_ModelName m) = Some m)
  ∧ (∀ s m, parse_ModelName s = Some m → str_ModelName m = s)
  ∧ (∀ v, parse_ForecastVariable (str_ForecastVariable v) = Some v)
  ∧ (∀ s v, parse_ForecastVariable s = Some v → str_ForecastVariable v = s)
  ∧ (∀ v, parse_PointVariable (str_PointVariable v) = Some v)
  ∧ (∀ s v, parse_PointVariable s = Some v → str_PointVariable v = s)
  ∧ (∀ c, parse_Comparison (str_Comparison c) = Some c)
  ∧ (∀ s c, parse_Comparison s = Some c → str_Comparison c = s)
  ∧ parse_ModelName "wrf" = None.
Proof.
  repeat split;
    first [ by intros []
          | intros s a; apply parse_literal_spelling ].
Qed.

(** X2: a Forecast body is accepted exactly when the class's declarations
    hold of it: model absent or one of the four names, init_time present,
    lead_hours present and within 1..240, variable absent or one of the five
    names, bbox present with exactly four numbers, times and grid present.
    Nothing else is checked: not the order of the bbox corners, not the form
    of the timestamps, not the lengths of the grid points' values. *)
Theorem forecast_accepted_iff (b : ForecastBody) :
  (∃ f, validate_forecast b = inr f) ↔ forecast_body_ok b.
Proof.
  unfold forecast_body_ok. split.
  - intros (f & (Hm & Hi & Hl & Hv & Hb & _ & Ht & Hg)%validate_forecast_inr).
    apply defaulted_inr in Hm, Hv. apply required_inr in Hi, Hl, Hb, Ht, Hg.
    split; [|split; [|split; [|split; [|split; [|split]]]]].
    + intros s Hs. destruct Hm as [[Hm _]|(a & Hm & Hp)]; [congruence|].
      rewrite Hs in Hm. injection Hm as <-.
      apply parse_literal_spelling in Hp as <-.
      destruct (forecast_model f); apply list_elem_of_In; cbn; tauto.
    + destruct Hi as (a & -> & _). eauto.
    + destruct Hl as (n & -> & [_ Hn]%check_range_Some). eauto.
    + intros s Hs. destruct Hv as [[Hv _]|(a & Hv & Hp)]; [congruence|].
      rewrite Hs in Hv. injection Hv as <-.
      apply parse_literal_spelling in Hp as <-.
      destruct (forecast_variable f); apply list_elem_of_In; cbn; tauto.
    + destruct Hb as (l & -> & [_ Hn]%check_items_Some).
      exists l. split; [done|lia].
    + destruct Ht as (a & -> & _). eauto.
    + destruct Hg as (a & -> & _). eauto.
  - intros (Hm & [it Hi] & (n & Hl & Hn) & Hv & (l & Hb & Hlen) & [ts Ht] & [g Hg]).
    assert (∃ m, defaulted "model" parse_ModelName WRF (body_model b) = inr m)
      as [m Em].
    { destruct (body_model b) as [s|]; [|by exists WRF].
      specialize (Hm s eq_refl). literal_cases Hm; eexists; reflexivity. }
    assert (∃ v, defaulted "variable" parse_ForecastVariable fv_t2m
                   (body_variable b) = inr v) as [v Ev].
    { destruct (body_variable b) as [s|]; [|by exists fv_t2m].
      specialize (Hv s eq_refl). literal_cases Hv; eexists; reflexivity. }
    exists {| forecast_model := m; forecast_init_time := it;
              forecast_lead_hours := n; forecast_variable := v;
              forecast_bbox := l;
              forecast_grid_res_km := default 10%float (body_grid_res_km b);
              forecast_times := ts; forecast_grid := g |}.
    apply validate_forecast_inr. cbn.
    split; [done|]. split; [by rewrite Hi|].
    split; [apply required_inr; exists n; split; [done|];
            by apply check_range_Some|].
    split; [done|].
    split; [apply required_inr; exists l; split; [done|];
            apply check_items_Some; split; [done|lia]|].
    split; [by destruct (body_grid_res_km b)|].
    split; [by rewrite Ht|by rewrite Hg].
Qed.

(** X3: the record of an accepted Forecast body, as it is serialized for the
    store, holds exactly the eight declared fields, each with the value that
    was sent; an absent model is "WRF", an absent variable "t2m", an absent
    grid_res_km 10.0. *)
Theorem forecast_record_of_body (b : ForecastBody) (f : Forecast) :
  validate_forecast b = inr f →
  model_dump f !! "model" = Some (VStr (default "WRF" (body_model b)))
  ∧ model_dump f !! "init_time" = VStr <$> body_init_time b
  ∧ model_dump f !! "lead_hours" = VInt <$> body_lead_hours b
  ∧ model_dump f !! "variable" = Some (VStr (default "t2m" (body_variable b)))
  ∧ model_dump f !! "bbox" = (λ l, VList (VFloat <$> l)) <$> body_bbox b
  ∧ model_dump f !! "grid_res_km"
    = Some (VFloat (default 10%float (body_grid_res_km b)))
  ∧ model_dump f !! "times" = (λ l, VList (VStr <$> l)) <$> body_times b
  ∧ model_dump f !! "grid" = (λ l, VList (dump_grid_point <$> l)) <$> body_grid b
  ∧ dom (model_dump f)
    = list_to_set ["model"; "init_time"; "lead_hours"; "variable"; "bbox";
                   "grid_res_km"; "times"; "grid"].
Proof.
  intros (Hm & Hi & Hl & Hv & Hb & Hr & Ht & Hg)%validate_forecast_inr.
  apply defaulted_inr in Hm, Hv, Hr. apply required_inr in Hi, Hl, Hb, Ht, Hg.
  destruct Hi as (it & -> & [= Hi]). destruct Hl as (n & -> & [Hl _]%check_range_Some).
  destruct Hb as (l & -> & [Hb _]%check_items_Some).
  destruct Ht as (ts & -> & [= Ht]). destruct Hg as (g & -> & [= Hg]).
  change (model_dump f !! "model") with (Some (VStr (str_ModelName (forecast_model f)))).
  change (model_dump f !! "init_time") with (Some (VStr (forecast_init_time f))).
  change (model_dump f !! "lead_hours") with (Some (VInt (forecast_lead_hours f))).
  change (model_dump f !! "variable")
    with (Some (VStr (str_ForecastVariable (forecast_variable f)))).
  change (model_dump f !! "bbox") with (Some (VList (VFloat <$> forecast_bbox f))).
  change (model_dump f !! "grid_res_km") with (Some (VFloat (forecast_grid_res_km f))).
  change (model_dump f !! "times") with (Some (VList (VStr <$> forecast_times f))).
  change (model_dump f !! "grid")
    with (Some (VList (dump_grid_point <$> forecast_grid f))).
  rewrite <- Hi, Hl, Hb, <- Ht, <- Hg. cbn [fmap option_fmap option_map].
  split; [|split; [done|split; [done|split; [|split; [done|split;
    [|split; [done|split; [done|]]]]]]]].
  - destruct Hm as [[-> ->]|(s & -> & Hp)]; [done|].
    by apply parse_literal_spelling in Hp as <-.
  - destruct Hv as [[-> ->]|(s & -> & Hp)]; [done|].
    by apply parse_literal_spelling in Hp as <-.
  - destruct Hr as [[-> ->]|(s & -> & [= ->])]; done.
  - unfold model_dump, Forecast_model. rewrite !dom_insert_L, dom_empty_L.
    set_solver.
Qed.

(** X4: an Alert body is accepted exactly when name, threshold and polygon
    are present and variable and comparison, when given, are among their
    literals. The polygon is not checked to be closed, nor its points to be
    pairs. *)
Theorem alert_accepted_iff (b : AlertBody) :
  (∃ a, validate_alert b = inr a) ↔ alert_body_ok b.
Proof.
  unfold alert_body_ok. split.
  - intros (a & (Hn & Hv & Ht & Hc & Hp & _)%validate_alert_inr).
    apply defaulted_inr in Hv, Hc. apply required_inr in Hn, Ht, Hp.
    split; [|split; [|split; [|split]]].
    + destruct Hn as (x & -> & _). eauto.
    + intros s Hs. destruct Hv as [[Hv _]|(x & Hv & Hx)]; [congruence|].
      rewrite Hs in Hv. injection Hv as <-.
      apply parse_literal_spelling in Hx as <-.
      destruct (alert_variable a); apply list_elem_of_In; cbn; tauto.
    + destruct Ht as (x & -> & _). eauto.
    + intros s Hs. destruct Hc as [[Hc _]|(x & Hc & Hx)]; [congruence|].
      rewrite Hs in Hc. injection Hc as <-.
      apply parse_literal_spelling in Hx as <-.
      destruct (alert_comparison a); apply list_elem_of_In; cbn; tauto.
    + destruct Hp as (x & -> & _). eauto.
  - intros ([n Hn] & Hv & [t Ht] & Hc & [p Hp]).
    assert (∃ v, defaulted "variable" parse_PointVariable t2m (abody_variable b)
                 = inr v) as [v Ev].
    { destruct (abody_variable b) as [s|]; [|by exists t2m].
      specialize (Hv s eq_refl). literal_cases Hv; eexists; reflexivity. }
    assert (∃ c, defaulted "comparison" parse_Comparison cmp_ge (abody_comparison b)
                 = inr c) as [c Ec].
    { destruct (abody_comparison b) as [s|]; [|by exists cmp_ge].
      specialize (Hc s eq_refl). literal_cases Hc; eexists; reflexivity. }
    exists {| alert_name := n; alert_variable := v; alert_threshold := t;
              alert_comparison := c; alert_polygon := p;
              alert_active := default true (abody_active b) |}.
    apply validate_alert_inr. cbn.
    split; [by rewrite Hn|]. split; [done|]. split; [by rewrite Ht|].
    split; [done|]. split; [by rewrite Hp|by destruct (abody_active b)].
Qed.

(** X5: the record of an accepted Alert body, as serialized, holds the six
    declared fields with the values sent; an absent variable is "t2m", an
    absent comparison ">=", and an absent active flag is true. *)
Theorem alert_record_of_body (b : AlertBody) (a : Alert) :
  validate_alert b = inr a →
  model_dump a !! "name" = VStr <$> abody_name b
  ∧ model_dump a !! "variable" = Some (VStr (default "t2m" (abody_variable b)))
  ∧ model_dump a !! "threshold" = VFloat <$> abody_threshold b
  ∧ model_dump a !! "comparison" = Some (VStr (default ">=" (abody_comparison b)))
  ∧ model_dump a !! "polygon"
    = (λ p, VList ((λ q, VList (VFloat <$> q)) <$> p)) <$> abody_polygon b
  ∧ model_dump a !! "active" = Some (VBool (default true (abody_active b)))
  ∧ dom (model_dump a)
    = list_to_set ["name"; "variable"; "threshold"; "comparison"; "polygon";
                   "active"].
Proof.
  intros (Hn & Hv & Ht & Hc & Hp & Ha)%validate_alert_inr.
  apply defaulted_inr in Hv, Hc, Ha. apply required_inr in Hn, Ht, Hp.
  destruct Hn as (n & -> & [= Hn]). destruct Ht as (t & -> & [= Ht]).
  destruct Hp as (p & -> & [= Hp]).
  change (model_dump a !! "name") with (Some (VStr (alert_name a))).
  change (model_dump a !! "variable")
    with (Some (VStr (str_PointVariable (alert_variable a)))).
  change (model_dump a !! "threshold") with (Some (VFloat (alert_threshold a))).
  change (model_dump a !! "comparison")
    with (Some (VStr (str_Comparison (alert_comparison a)))).
  change (model_dump a !! "polygon")
    with (Some (VList ((λ q, VList (VFloat <$> q)) <$> alert_polygon a))).
  change (model_dump a !! "active") with (Some (VBool (alert_active a))).
  rewrite <- Hn, <- Ht, <- Hp. cbn [fmap option_fmap option_map].
  split; [done|split; [|split; [done|split; [|split; [done|split]]]]].
  - destruct Hv as [[-> ->]|(s & -> & Hx)]; [done|].
    by apply parse_literal_spelling in Hx as <-.
  - destruct Hc as [[-> ->]|(s & -> & Hx)]; [done|].
    by apply parse_literal_spelling in Hx as <-.
  - destruct Ha as [[-> ->]|(s & -> & [= ->])]; done.
  - unfold model_dump, Alert_model. rewrite !dom_insert_L, dom_empty_L.
    set_solver.
Qed.

(** ** GET /api/forecasts/{forecast_id} *)

(** X6: an identifier that bson refuses, that is one that is not 24
    characters long or that bytes.fromhex rejects (a character that is no
    hexadecimal digit, or whitespace inside a pair of digits), is answered 500
    with the message of bson's InvalidId, which starts with the repr of the
    identifier, whatever the store holds and even when the store is
    unavailable: the identifier is parsed before the store is asked. *)
Theorem get_forecast_malformed_id (db : database) (forecast_id : string) :
  char_length forecast_id ≠ 24%nat ∨ bytes_fromhex forecast_id = None →
  get_forecast db forecast_id
  = Error 500 (py_repr forecast_id
               +:+ " is not a valid ObjectId, it must be a 12-byte input "
               +:+ "or a 24-character hex string").
Proof.
  intros Hbad. unfold get_forecast, ObjectId_of_str.
  destruct (char_length forecast_id =? 24)%nat eqn:E.
  - apply Nat.eqb_eq in E. destruct Hbad as [Hbad| ->]; [done|reflexivity].
  - reflexivity.
Qed.

(** X7: GET /api/forecasts/{id} never answers 404, nor any status other than
    200 and 500, whatever the identifier and the store. *)
Theorem get_forecast_status (db : database) (forecast_id : string) :
  status (get_forecast db forecast_id) = 200
  ∨ status (get_forecast db forecast_id) = 500.
Proof.
  unfold get_forecast.
  destruct (ObjectId_of_str forecast_id) as [oid|e]; [|by right].
  cbn [mbind result_bind].
  destruct (get_documents db "forecast" {["_id" := VOid oid]} 1) as [docs|e];
    [|by right].
  cbn [mbind result_bind]. destruct docs as [|d docs]; [by right|].
  destruct (d !! "_id"); [by left|by right].
Qed.

(** X8: when GET /api/forecasts/{id} answers with a document, the identifier
    was well formed, and the document is a stored forecast whose "_id" is that
    identifier, with "_id" removed and "id" set to the identifier's lower-case
    hexadecimal form (also when the request spelled it in upper case); the
    other fields are as stored. *)
Theorem get_forecast_found (db : database) (forecast_id : string) (d : doc) :
  get_forecast db forecast_id = Body d →
  ∃ oid stored,
    ObjectId_of_str forecast_id = Return oid
    ∧ stored ∈ collection db "forecast"
    ∧ stored !! "_id" = Some (VOid oid)
    ∧ d !! "_id" = None
    ∧ d !! "id" = Some (VStr (oid_str oid))
    ∧ ∀ k, k ≠ "_id" → k ≠ "id" → d !! k = stored !! k.
Proof.
  unfold get_forecast.
  destruct (ObjectId_of_str forecast_id) as [oid|e]; [|discriminate].
  cbn [mbind result_bind].
  destruct (get_documents db "forecast" {["_id" := VOid oid]} 1) as [docs|e] eqn:E;
    [|discriminate].
  cbn [mbind result_bind]. destruct docs as [|stored docs]; [discriminate|].
  destruct (stored !! "_id") as [v|] eqn:Ev; [|discriminate].
  cbn. intros [= <-]. exists oid, stored.
  assert (stored ∈ collection db "forecast" ∧ v = VOid oid) as [Hin ->].
  { unfold get_documents, collection in *. destruct db as [colls|]; [|discriminate].
    injection E as E.
    assert (stored ∈ take (Z.to_nat 1)
              (List.filter (matches {["_id" := VOid oid]})
                 (default [] (colls !! "forecast")))) as Hs
      by (rewrite E; left).
    apply subseteq_take, list_elem_of_In, filter_In in Hs as [Hs Hm].
    split; [by apply list_elem_of_In|].
    rewrite matches_singleton in Hm. unfold field_matches in Hm.
    rewrite Ev in Hm. by apply value_eqb_VOid in Hm. }
  split; [done|]. split; [done|]. split; [done|].
  split; [by rewrite lookup_insert_ne, lookup_delete_eq|].
  split; [by rewrite lookup_insert_eq|].
  intros k Hk1 Hk2. by rewrite lookup_insert_ne, lookup_delete_ne.
Qed.

(** ** The identifier renaming and the listings *)

Lemma rename_id_no_truthy_id (d : doc) (v : value) :
  rename_id d !! "_id" = Some v → truthy v = false.
Proof.
  unfold rename_id. destruct (d !! "_id") as [w|] eqn:E; [|by rewrite E].
  destruct (truthy w) eqn:Et.
  - by rewrite lookup_insert_ne, lookup_delete_eq.
  - rewrite E. by intros [= <-].
Qed.

Lemma list_forecasts_Body (db : database) (model variable : option string)
  (limit : option Z) (docs : list doc) :
  list_forecasts db model variable limit = Body docs →
  ∃ raw n, get_documents db "forecast"
             (filter_on "variable" variable (filter_on "model" model ∅)) n
           = Return raw
         ∧ docs = rename_id <$> raw.
Proof.
  unfold list_forecasts, Query.
  destruct limit as [m|]; [destruct (_ && _); [|discriminate]|];
    (destruct (get_documents _ _ _ _) as [raw|e] eqn:E; [|discriminate];
     cbn; intros [= <-]; eauto).
Qed.

Lemma list_alerts_Body (db : database) (active : option bool)
  (limit : option Z) (docs : list doc) :
  list_alerts db active limit = Body docs →
  ∃ raw filt n, get_documents db "alert" filt n = Return raw
              ∧ docs = rename_id <$> raw.
Proof.
  unfold list_alerts, Query.
  destruct limit as [m|]; [destruct (_ && _); [|discriminate]|];
    (destruct (get_documents _ _ _ _) as [raw|e] eqn:E; [|discriminate];
     cbn; intros [= <-]; eauto).
Qed.

(** X9: the renaming step is idempotent and leaves no truthy "_id" behind;
    so no document in an answer of GET /api/forecasts or GET /api/alerts
    carries a truthy "_id" (a falsy one, such as 0, stays in place). *)
Theorem listings_hide_store_id :
  (∀ d, rename_id (rename_id d) = rename_id d)
  ∧ (∀ d v, rename_id d !! "_id" = Some v → truthy v = false)
  ∧ (∀ db model variable limit docs d v,
       list_forecasts db model variable limit = Body docs →
       d ∈ docs → d !! "_id" = Some v → truthy v = false)
  ∧ (∀ db active limit docs d v,
       list_alerts db active limit = Body docs →
       d ∈ docs → d !! "_id" = Some v → truthy v = false).
Proof.
  split; [|split; [|split]].
  - intros d. unfold rename_id at 1.
    destruct (rename_id d !! "_id") as [v|] eqn:E; [|done].
    by rewrite (rename_id_no_truthy_id d v E).
  - apply rename_id_no_truthy_id.
  - intros db model variable limit docs d v
      (raw & n & _ & ->)%list_forecasts_Body (d0 & -> & _)%list_elem_of_fmap.
    apply rename_id_no_truthy_id.
  - intros db active limit docs d v
      (raw & filt & n & _ & ->)%list_alerts_Body (d0 & -> & _)%list_elem_of_fmap.
    apply rename_id_no_truthy_id.
Qed.

Lemma matches_spec (filt d : doc) :
  matches filt d = true
  ↔ ∀ k v, filt !! k = Some v → field_matches d k v = true.
Proof.
  unfold matches. rewrite forallb_forall. split.
  - intros H k v Hk. apply (H (k, v)).
    apply list_elem_of_In. by apply elem_of_map_to_list.
  - intros H [k v] Hin. apply H.
    apply elem_of_map_to_list. by apply list_elem_of_In.
Qed.

Lemma matches_filter_on (model variable : option string) (d : doc) :
  matches (filter_on "variable" variable (filter_on "model" model ∅)) d
  = param_wanted "model" model d && param_wanted "variable" variable d.
Proof.
  apply eq_true_iff_eq. rewrite matches_spec, andb_true_iff.
  unfold filter_on, param_wanted.
  destruct model as [m|]; [destruct (String.eqb m "")|];
    (destruct variable as [v|]; [destruct (String.eqb v "")|]); split.
  all: try (intros _; split; reflexivity).
  all: try (intros _ k w Hk; by rewrite lookup_empty in Hk).
  all: try (intros H; split; try reflexivity; apply H;
            (by rewrite lookup_insert_eq)
            || (rewrite lookup_insert_ne by done; by rewrite lookup_insert_eq)).
  all: intros [H1 H2] k w Hk;
    repeat (apply lookup_insert_Some in Hk as [[<- <-]|[_ Hk]]; [done|]);
    by rewrite lookup_empty in Hk.
Qed.

Lemma value_eqb_VStr (s : string) (v : value) :
  value_eqb (VStr s) v = true ↔ v = VStr s.
Proof.
  destruct v; cbn; try (split; [discriminate|by intros [=]]).
  rewrite String.eqb_eq. split; [by intros ->|by intros [= ->]].
Qed.

(** X10: on an available store and with a limit in range, GET /api/forecasts
    answers with the first [limit] forecasts, in insertion order, among those
    that have the model asked for and the variable asked for (an absent or
    empty parameter asks nothing), each after the renaming step. The model
    parameter is not checked against the model names: an unknown name is not
    an error, it matches nothing that has another model. *)
Theorem list_forecasts_filter (colls : gmap string (list doc))
  (model variable : option string) (limit : option Z) :
  1 <= default 20 limit <= 200 →
  let wanted d := param_wanted "model" model d && param_wanted "variable" variable d in
  let docs := rename_id <$> take (Z.to_nat (default 20 limit))
                              (List.filter wanted (default [] (colls !! "forecast"))) in
  list_forecasts (Some colls) model variable limit = Body docs
  ∧ (∀ d m, d ∈ docs → model = Some m → m ≠ "" → d !! "model" = Some (VStr m))
  ∧ (∀ d v, d ∈ docs → variable = Some v → v ≠ "" → d !! "variable" = Some (VStr v)).
Proof.
  intros Hn wanted docs.
  assert (∀ d key param s, d ∈ docs → param = Some s → s ≠ "" →
            key ≠ "_id" → key ≠ "id" →
            (∀ d0, wanted d0 = true → param_wanted key param d0 = true) →
            d !! key = Some (VStr s)) as Hfield.
  { intros d key param s (d0 & -> & Hd0)%list_elem_of_fmap -> Hs Hk1 Hk2 Hw.
    apply subseteq_take, list_elem_of_In, filter_In in Hd0 as [_ Hd0].
    apply Hw in Hd0. unfold param_wanted in Hd0.
    apply String.eqb_neq in Hs. rewrite Hs in Hd0.
    rewrite rename_id_other by done.
    unfold field_matches in Hd0. destruct (d0 !! key) as [w|]; [|done].
    apply value_eqb_VStr in Hd0. by subst. }
  split; [|split].
  - rewrite list_forecasts_in_range by done. unfold get_documents.
    cbn [mbind result_bind mret result_ret except_500 respond].
    by rewrite (filter_ext _ _ (matches_filter_on model variable)).
  - intros d m Hd Hm Hne. apply (Hfield d "model" model m); try done.
    intros d0. unfold wanted. by intros [? _]%andb_true_iff.
  - intros d v Hd Hv Hne. apply (Hfield d "variable" variable v); try done.
    intros d0. unfold wanted. by intros [_ ?]%andb_true_iff.
Qed.

(** ** The alert endpoints and the store *)

Lemma post_api_alerts_Body (db : database) (oid : ObjectId) (b : AlertBody)
  (r : InsertResponse) (db' : database) :
  post_api_alerts db oid b = (Body r, db') →
  ∃ colls alert,
    db = Some colls ∧ validate_alert b = inr alert ∧ id r = oid_str oid
    ∧ db' = Some (<["alert" :=
                    (default [] (colls !! "alert")
                     ++ [<["_id" := VOid oid]> (model_dump alert)])%list]> colls).
Proof.
  unfold post_api_alerts, body_error.
  destruct (validate_alert b) as [errs|alert]; [discriminate|].
  unfold create_alert, create_document. destruct db as [colls|]; [|discriminate].
  destruct (existsb _ _) eqn:E; [discriminate|].
  cbn. intros [= <- <-]. exists colls, alert. done.
Qed.

Lemma rename_id_fresh (oid : ObjectId) (m : doc) :
  m !! "_id" = None →
  rename_id (<["_id" := VOid oid]> m) = <["id" := VStr (oid_str oid)]> m.
Proof.
  intros Hm. unfold rename_id. rewrite lookup_insert_eq. cbn [truthy py_str].
  by rewrite delete_insert_eq, delete_id.
Qed.

Lemma last_within_limit {A} (f : A → bool) (old : list A) (new : A) (n : nat) :
  f new = true → (length old < n)%nat →
  new ∈ take n (List.filter f (old ++ [new])).
Proof.
  intros Hf Hn. rewrite List.filter_app. cbn [List.filter]. rewrite Hf.
  rewrite take_ge.
  - apply list_elem_of_In, in_or_app. right. by left.
  - rewrite length_app. cbn. pose proof (List.filter_length_le f old). lia.
Qed.

Lemma list_alerts_available (colls : gmap string (list doc)) (active : option bool)
  (limit : option Z) :
  1 <= default 50 limit <= 500 →
  list_alerts (Some colls) active limit
  = Body (rename_id <$>
            take (Z.to_nat (default 50 limit))
              (List.filter
                 (matches (match active with
                           | Some b => <["active" := VBool b]> ∅
                           | None => ∅
                           end))
                 (default [] (colls !! "alert")))).
Proof. intros Hn. by rewrite list_alerts_in_range. Qed.

(** X11: an alert that POST /api/alerts has stored is listed by
    GET /api/alerts, under the identifier the POST returned and with the
    fields of the payload, both without the active parameter and with the
    alert's own flag (true when the payload gave none); it is not listed under
    the opposite flag. The limit is assumed to exceed the number of alerts
    stored before. *)
Theorem post_alert_then_list (db db' : database) (oid : ObjectId) (b : AlertBody)
  (alert : Alert) (r : InsertResponse) (limit : option Z) :
  validate_alert b = inr alert →
  post_api_alerts db oid b = (Body r, db') →
  Z.of_nat (length (collection db "alert")) < default 50 limit <= 500 →
  let listed := <["id" := VStr (id r)]> (model_dump alert) in
  (∃ docs, list_alerts db' (Some (alert_active alert)) limit = Body docs
           ∧ listed ∈ docs)
  ∧ (∃ docs, list_alerts db' None limit = Body docs ∧ listed ∈ docs)
  ∧ (∃ docs, list_alerts db' (Some (negb (alert_active alert))) limit = Body docs
             ∧ listed ∉ docs).
Proof.
  intros Hvalid Hpost Hn listed.
  apply post_api_alerts_Body in Hpost as (colls & a' & -> & Hvalid' & Hid & ->).
  rewrite Hvalid in Hvalid'. injection Hvalid' as <-.
  cbn [collection] in Hn.
  assert (1 <= default 50 limit <= 500) as Hrange by lia.
  assert (rename_id (<["_id" := VOid oid]> (model_dump alert)) = listed) as Hnew.
  { subst listed. rewrite Hid. by apply rename_id_fresh. }
  assert (∀ x, (<["_id" := VOid oid]> (model_dump alert) : doc) !! "active" = Some x
               → x = VBool (alert_active alert)) as Hflag.
  { intros x. rewrite lookup_insert_ne by done.
    change (model_dump alert !! "active") with (Some (VBool (alert_active alert))).
    by intros [= <-]. }
  split; [|split].
  - eexists. split; [by apply list_alerts_available|].
    rewrite default_lookup_insert, <- Hnew. apply list_elem_of_fmap_2.
    apply last_within_limit; [|lia].
    rewrite insert_empty, matches_singleton. unfold field_matches.
    rewrite lookup_insert_ne by done.
    change (model_dump alert !! "active") with (Some (VBool (alert_active alert))).
    by apply value_eqb_VBool.
  - eexists. split; [by apply list_alerts_available|].
    rewrite default_lookup_insert, <- Hnew. apply list_elem_of_fmap_2.
    apply last_within_limit; [apply matches_empty|lia].
  - eexists. split; [by apply list_alerts_available|].
    rewrite default_lookup_insert.
    intros (d0 & Heq & Hd0)%list_elem_of_fmap.
    apply subseteq_take, list_elem_of_In, filter_In in Hd0 as [_ Hm].
    rewrite insert_empty, matches_singleton in Hm. unfold field_matches in Hm.
    destruct (d0 !! "active") as [x|] eqn:Ex; [|done].
    apply value_eqb_VBool in Hm. subst x.
    assert (listed !! "active" = Some (VBool (negb (alert_active alert)))) as Hl
      by (rewrite Heq; by rewrite rename_id_other).
    subst listed. rewrite lookup_insert_ne in Hl by done.
    change (model_dump alert !! "active")
      with (Some (VBool (alert_active alert))) in Hl.
    injection Hl as Hl. by destruct (alert_active alert).
Qed.

Lemma write_step_prefix (db : database) (c : write_call) (name : string) :
  collection db name `prefix_of` collection (write_step db c) name.
Proof.
  destruct c as [oid b|oid b]; cbn [write_step].
  - unfold post_api_forecasts.
    destruct (validate_forecast b) as [errs|forecast]; [done|].
    unfold create_forecast, create_document. destruct db as [colls|]; [|done].
    destruct (existsb _ _); [done|]. cbn [snd collection].
    destruct (decide (name = "forecast")) as [->|Hne].
    + rewrite default_lookup_insert. by apply prefix_app_r.
    + by rewrite lookup_insert_ne.
  - unfold post_api_alerts.
    destruct (validate_alert b) as [errs|alert]; [done|].
    unfold create_alert, create_document. destruct db as [colls|]; [|done].
    destruct (existsb _ _); [done|]. cbn [snd collection].
    destruct (decide (name = "alert")) as [->|Hne].
    + rewrite default_lookup_insert. by apply prefix_app_r.
    + by rewrite lookup_insert_ne.
Qed.

(** X12: the API only ever appends. After any run of POST /api/forecasts and
    POST /api/alerts, every collection still begins with the documents it
    held before, unchanged and in the same order; and a POST that is not
    answered 200 leaves the store exactly as it was. *)
Theorem store_append_only :
  (∀ db calls name,
     collection db name `prefix_of` collection (run_writes db calls) name)
  ∧ (∀ db oid b, status (post_api_forecasts db oid b).1 ≠ 200 →
       (post_api_forecasts db oid b).2 = db)
  ∧ (∀ db oid b, status (post_api_alerts db oid b).1 ≠ 200 →
       (post_api_alerts db oid b).2 = db).
Proof.
  split; [|split].
  - intros db calls. revert db.
    induction calls as [|c calls IH]; intros db name; [done|].
    cbn. etrans; [apply (write_step_prefix db c)|apply IH].
  - intros db oid b. unfold post_api_forecasts.
    destruct (validate_forecast b) as [errs|forecast]; [done|].
    unfold create_forecast, create_document. destruct db as [colls|]; [|done].
    destruct (existsb _ _); [done|]. cbn. done.
  - intros db oid b. unfold post_api_alerts.
    destruct (validate_alert b) as [errs|alert]; [done|].
    unfold create_alert, create_document. destruct db as [colls|]; [|done].
    destruct (existsb _ _); [done|]. cbn. done.
Qed.

(** ** POST /api/meteogram *)

Lemma mapM_Return_lookup {A B} (f : A → result B) (l : list A) (k : list B)
  (j : nat) (x : A) :
  mapM f l = Return k → l !! j = Some x →
  ∃ y, f x = Return y ∧ k !! j = Some y.
Proof.
  revert k j. induction l as [|a l IH]; intros k j; [by destruct j|].
  cbn [mapM]. destruct (f a) as [y|e] eqn:Ea; cbn; [|discriminate].
  destruct (mapM f l) as [k'|e] eqn:El; cbn; [|discriminate].
  intros [= <-]. destruct j as [|j]; cbn.
  - intros [= <-]. eauto.
  - intros Hx. by apply IH.
Qed.

Lemma mapM_Raise {A B} (f : A → result B) (l : list A) (P : exn → Prop)
  (x : A) (e : exn) :
  (∀ a e', f a = Raise e' → P e') → x ∈ l → f x = Raise e →
  ∃ e', mapM f l = Raise e' ∧ P e'.
Proof.
  intros HP Hx Hfx. induction l as [|a l IH]; [by apply elem_of_nil in Hx|].
  cbn [mapM]. destruct (f a) as [y|e'] eqn:Ea; cbn.
  - apply elem_of_cons in Hx as [->|Hx]; [congruence|].
    destruct (IH Hx) as (e' & -> & He'). cbn. eauto.
  - eauto.
Qed.

Lemma generate_meteogram_Return_inv (now : datetime) (req : MeteogramRequest)
  (r : MeteogramResponse) :
  generate_meteogram now req = Return r →
  mapM (λ i, d ← add_hours (replace_minute_second_microsecond_0 now) i;
             mret (isoformat d +:+ "Z")) (seqZ 0 49) = Return (times r)
  ∧ lat r = req_lat req ∧ lon r = req_lon req ∧ variable r = req_variable req
  ∧ units r = match req_variable req with t2m => "°C" | _ => "units" end.
Proof.
  unfold generate_meteogram.
  destruct (mapM _ (seqZ 0 49)) as [ts|e]; [|discriminate].
  cbn. by intros [= <-].
Qed.

Lemma post_api_meteogram_Body (now : datetime) (req : MeteogramRequest)
  (r : MeteogramResponse) :
  post_api_meteogram now req = Body r ↔ generate_meteogram now req = Return r.
Proof.
  unfold post_api_meteogram.
  destruct (generate_meteogram now req) as [a|[]]; cbn; split;
    (discriminate || by intros [= ->]).
Qed.

Lemma whole_hours (k : Z) :
  (k * 3600) / 86400 = k / 24
  ∧ ((k * 3600) mod 86400) / 3600 = k mod 24
  ∧ (((k * 3600) mod 86400) mod 3600) / 60 = 0
  ∧ ((k * 3600) mod 86400) mod 60 = 0.
Proof. clear. repeat split; Z.to_euclidean_division_equations; lia. Qed.

Lemma plus_hours_start (now : datetime) (i : Z) :
  plus_hours (replace_minute_second_microsecond_0 now) i
  = let '(y, m, d) := ord2ymd (toordinal now + (hour now + i) / 24) in
    {| year := y; month := m; day := d; hour := (hour now + i) mod 24;
       minute := 0; second := 0; microsecond := 0 |}.
Proof.
  unfold plus_hours.
  cbn [hour minute second microsecond replace_minute_second_microsecond_0].
  change (toordinal (replace_minute_second_microsecond_0 now)) with (toordinal now).
  replace (hour now * 3600 + 0 * 60 + 0 + i * 3600) with ((hour now + i) * 3600)
    by lia.
  destruct (whole_hours (hour now + i)) as (-> & -> & -> & ->). reflexivity.
Qed.

Lemma add_hours_start_range (now : datetime) (i : Z) :
  valid_datetime now → 0 <= i →
  add_hours (replace_minute_second_microsecond_0 now) i
  = if toordinal now + (hour now + i) / 24 <=? MAXORDINAL
    then Return (plus_hours (replace_minute_second_microsecond_0 now) i)
    else Raise (PyException "OverflowError" "date value out of range").
Proof.
  intros Hv Hi. pose proof (toordinal_pos now Hv) as Hpos.
  destruct Hv as (_ & _ & _ & Hh & _).
  unfold add_hours. cbn [hour minute second replace_minute_second_microsecond_0].
  change (toordinal (replace_minute_second_microsecond_0 now)) with (toordinal now).
  replace (hour now * 3600 + 0 * 60 + 0 + i * 3600) with ((hour now + i) * 3600)
    by lia.
  destruct (whole_hours (hour now + i)) as (-> & _).
  assert (0 <= (hour now + i) / 24) by (apply Z.div_pos; lia).
  destruct (0 <? _) eqn:E; [reflexivity|apply Z.ltb_ge in E; lia].
Qed.

(** X13: the body of POST /api/meteogram is refused with a 422 when lat or
    lon is missing or when variable is given and is not "t2m", "precip" or
    "mslp" (so "u10", a variable of forecasts, is refused). When the request
    is answered, lat and lon are those sent, variable is the one sent or
    "t2m", and units is "°C" exactly for "t2m" and "units" otherwise. The
    forecast_id of the body has no effect on the answer, whatever it is. *)
Theorem meteogram_route (now : datetime) (b : MeteogramBody) :
  (∀ x, route_api_meteogram now b
        = route_api_meteogram now
            {| mbody_lat := mbody_lat b; mbody_lon := mbody_lon b;
               mbody_variable := mbody_variable b; mbody_forecast_id := x |})
  ∧ (mbody_lat b = None ∨ mbody_lon b = None
     ∨ (∃ s, mbody_variable b = Some s ∧ s ∉ ["t2m"; "precip"; "mslp"]) →
     status (route_api_meteogram now b) = 422)
  ∧ (∀ r, route_api_meteogram now b = Body r →
       mbody_lat b = Some (lat r) ∧ mbody_lon b = Some (lon r)
       ∧ str_PointVariable (variable r) = default "t2m" (mbody_variable b)
       ∧ (units r = "°C" ↔ variable r = t2m)
       ∧ (variable r ≠ t2m → units r = "units")).
Proof.
  split; [|split].
  - intros x. unfold route_api_meteogram, validate_meteogram. cbn.
    destruct (required "lat" _ _); [done|].
    destruct (required "lon" _ _); [done|].
    destruct (defaulted "variable" _ _ _); done.
  - intros Hbad. unfold route_api_meteogram, validate_meteogram.
    destruct Hbad as [->|[->|(s & -> & Hs)]].
    + reflexivity.
    + destruct (required "lat" _ _); reflexivity.
    + assert (parse_PointVariable s = None) as Hp.
      { destruct (parse_PointVariable s) as [v|] eqn:E; [|done].
        apply parse_literal_spelling in E as <-. exfalso. apply Hs.
        destruct v; apply list_elem_of_In; cbn; tauto. }
      unfold defaulted. rewrite Hp.
      destruct (required "lat" _ _); [reflexivity|].
      destruct (required "lon" _ _); reflexivity.
  - intros r. unfold route_api_meteogram.
    destruct (validate_meteogram b) as [fields|req] eqn:Hv; [discriminate|].
    intros (_ & Hlat & Hlon & Hvar & Hu)%post_api_meteogram_Body
             %generate_meteogram_Return_inv.
    unfold validate_meteogram in Hv.
    destruct (required "lat" Some (mbody_lat b)) as [|la] eqn:Ela; [discriminate|].
    destruct (required "lon" Some (mbody_lon b)) as [|lo] eqn:Elo; [discriminate|].
    destruct (defaulted "variable" _ _ _) as [|v] eqn:Ev; [discriminate|].
    injection Hv as <-. cbn in Hlat, Hlon, Hvar, Hu.
    apply required_inr in Ela as (? & -> & [= ->]).
    apply required_inr in Elo as (? & -> & [= ->]).
    apply defaulted_inr in Ev.
    rewrite Hlat, Hlon, Hvar, Hu.
    split; [done|]. split; [done|]. split; [|split].
    + destruct Ev as [[-> ->]|(s & -> & Hp)]; [done|].
      by apply parse_literal_spelling in Hp as <-.
    + by destruct v.
    + by destruct v.
Qed.

(** X14: every timestamp of an answered meteogram request is on the hour.
    The entry at index i of 0..48 is the ISO format of the day (hour + i) div 24
    days after the clock's day, at hour (hour + i) mod 24, minute 0, second 0
    and no fraction, followed by "Z"; so exactly one "Z" and no offset. *)
Theorem meteogram_times_on_the_hour (now : datetime) (req : MeteogramRequest)
  (r : MeteogramResponse) (i : Z) :
  post_api_meteogram now req = Body r → 0 <= i <= 48 →
  ∃ y m d,
    ord2ymd (toordinal now + (hour now + i) / 24) = (y, m, d)
    ∧ times r !! Z.to_nat i
      = Some (isoformat {| year := y; month := m; day := d;
                           hour := (hour now + i) mod 24;
                           minute := 0; second := 0; microsecond := 0 |}
              +:+ "Z").
Proof.
  intros (Hts & _)%post_api_meteogram_Body%generate_meteogram_Return_inv Hi.
  destruct (mapM_Return_lookup _ _ _ (Z.to_nat i) i Hts) as (s & Hs & Hl).
  { rewrite lookup_seqZ_lt by lia. f_equal. lia. }
  rewrite Hl.
  destruct (add_hours (replace_minute_second_microsecond_0 now) i)
    as [d'|e] eqn:Ea; [|discriminate].
  assert (s = isoformat d' +:+ "Z") as -> by (symmetry; exact (f_equal
    (λ x, match x with Return a => a | Raise _ => s end) Hs)).
  assert (d' = plus_hours (replace_minute_second_microsecond_0 now) i) as ->.
  { unfold add_hours in Ea. destruct (_ && _); [|discriminate].
    exact (f_equal (λ x, match x with Return a => a | Raise _ => d' end)
             (eq_sym Ea)). }
  rewrite plus_hours_start.
  destruct (ord2ymd _) as [[y m] d]. by exists y, m, d.
Qed.

(** X15: POST /api/meteogram is answered exactly when the hour 48 hours after
    the clock's hour is still in the calendar, that is on or before
    9999-12-31; otherwise the OverflowError of the date arithmetic, which the
    handler does not catch, is answered as a plain 500. *)
Theorem meteogram_answered_iff_in_range (now : datetime) (req : MeteogramRequest) :
  valid_datetime now →
  (toordinal now + (hour now + 48) / 24 <= MAXORDINAL →
   ∃ r, post_api_meteogram now req = Body r)
  ∧ (MAXORDINAL < toordinal now + (hour now + 48) / 24 →
     post_api_meteogram now req = Error 500 "Internal Server Error").
Proof.
  intros Hv. split.
  - intros Hmax. eexists. apply post_api_meteogram_Body.
    unfold generate_meteogram.
    rewrite (mapM_Return _ (λ i, isoformat
               (plus_hours (replace_minute_second_microsecond_0 now) i) +:+ "Z")).
    + reflexivity.
    + intros i Hi%elem_of_seqZ. rewrite add_hours_start_range by (done || lia).
      assert ((hour now + i) / 24 <= (hour now + 48) / 24)
        by (apply Z.div_le_mono; lia).
      destruct (_ <=? _) eqn:E; [reflexivity|apply Z.leb_gt in E; lia].
  - intros Hmax. unfold post_api_meteogram, generate_meteogram.
    destruct (mapM_Raise
                (λ i, d ← add_hours (replace_minute_second_microsecond_0 now) i;
                      mret (isoformat d +:+ "Z"))
                (seqZ 0 49) (λ e, ∃ c m, e = PyException c m) 48
                (PyException "OverflowError" "date value out of range"))
      as (e & -> & c & m & ->).
    + intros a e'. unfold add_hours. destruct (_ && _); [discriminate|].
      cbn. intros [= <-]. eauto.
    + apply elem_of_seqZ. lia.
    + rewrite add_hours_start_range by (done || lia).
      destruct (_ <=? _) eqn:E; [apply Z.leb_le in E; lia|reflexivity].
    + reflexivity.
Qed.

(** ** GET /test *)





End Handlers.

(** * The properties on the sample inputs *)

(** The calendar of the embedding on a leap day: 26 hours after
    2024-02-28T22:00 is the first hour of March. *)
Example add_hours_over_leap_day :
  isoformat <$> [plus_hours (replace_minute_second_microsecond_0 clock_leap) 2;
                 plus_hours (replace_minute_second_microsecond_0 clock_leap) 26]
  = ["2024-02-29T00:00:00"; "2024-03-01T00:00:00"].
Proof. reflexivity. Qed.

Lemma meteogram_t2m_witness :
  valid_datetime clock_leap ∧ toordinal clock_leap + 2 <= MAXORDINAL
  ∧ ∃ r, post_api_meteogram flat_sin keep_round clock_leap req_t2m = Body r
       ∧ length (times r) = 49%nat ∧ length (values r) = 49%nat
       ∧ units r = "°C" ∧ values r !! 0%nat = Some 15%float.
Proof.
  assert (valid_datetime clock_leap) as Hv
    by (unfold valid_datetime; repeat split; vm_compute; discriminate || reflexivity).
  assert (toordinal clock_leap + 2 <= MAXORDINAL) as Hmax by (vm_compute; discriminate).
  split; [exact Hv|]. split; [exact Hmax|].
  destruct (meteogram_t2m flat_sin keep_round clock_leap req_t2m Hv Hmax eq_refl)
    as (r & Hr & Ht & Hn & Hu & _ & H0).
  exists r. repeat (split; [assumption|]). apply H0; reflexivity.
Defined.

Lemma meteogram_values_independent_witness :
  ∃ r1 r2,
    post_api_meteogram flat_sin keep_round clock_leap req_t2m = Body r1
    ∧ post_api_meteogram flat_sin keep_round clock_new_year req_precip = Body r2
    ∧ units r1 ≠ units r2 ∧ times r1 ≠ times r2
    ∧ values r1 = values r2.
Proof.
  destruct (post_api_meteogram flat_sin keep_round clock_leap req_t2m)
    as [r1|c1 d1] eqn:E1; [|vm_compute in E1; discriminate E1].
  destruct (post_api_meteogram flat_sin keep_round clock_new_year req_precip)
    as [r2|c2 d2] eqn:E2; [|vm_compute in E2; discriminate E2].
  exists r1, r2. split; [reflexivity|]. split; [reflexivity|].
  split; [|split].
  - vm_compute in E1. vm_compute in E2.
    injection E1 as <-. injection E2 as <-. discriminate.
  - vm_compute in E1. vm_compute in E2.
    injection E1 as <-. injection E2 as <-. discriminate.
  - exact (meteogram_values_independent flat_sin keep_round _ _ _ _ _ _ E1 E2).
Defined.

Lemma meteogram_times_witness :
  valid_datetime clock_leap ∧ toordinal clock_leap + 2 <= MAXORDINAL
  ∧ ∃ r, post_api_meteogram flat_sin keep_round clock_leap req_precip = Body r
       ∧ length (times r) = 49%nat
       ∧ times r !! 0%nat = Some "2024-02-28T22:00:00Z"
       ∧ times r !! 48%nat = Some "2024-03-01T22:00:00Z".
Proof.
  assert (valid_datetime clock_leap) as Hv
    by (unfold valid_datetime; repeat split; vm_compute; discriminate || reflexivity).
  assert (toordinal clock_leap + 2 <= MAXORDINAL) as Hmax by (vm_compute; discriminate).
  split; [exact Hv|]. split; [exact Hmax|].
  destruct (meteogram_times flat_sin keep_round clock_leap req_precip Hv Hmax)
    as (r & Hr & Hlen & Ht).
  exists r. split; [exact Hr|]. split; [exact Hlen|]. split.
  - destruct (Ht 0 ltac:(lia)) as (d & Hd & Hl).
    vm_compute in Hd. injection Hd as <-. exact Hl.
  - destruct (Ht 48 ltac:(lia)) as (d & Hd & Hl).
    vm_compute in Hd. injection Hd as <-. exact Hl.
Defined.

(** C2 as the claim states it fails: on the empty store, limit=500 on the
    forecasts and limit=1000 on the alerts are answered 422, while limit=200
    and limit=500 are answered with the (empty) list. *)
Lemma limit_above_range_is_refused :
  list_forecasts blank_str store_empty None None (Some 500) = Error 422 "query.limit"
  ∧ list_forecasts blank_str store_empty None None (Some 200) = Body []
  ∧ list_alerts blank_str store_empty None (Some 1000) = Error 422 "query.limit"
  ∧ list_alerts blank_str store_empty None (Some 500) = Body [].
Proof. repeat split; reflexivity. Qed.

Lemma limit_validated_witness :
  list_forecasts blank_str store_empty None (Some "t2m") (Some 201)
  = Error 422 "query.limit"
  ∧ list_alerts blank_str store_empty (Some true) (Some 0) = Error 422 "query.limit"
  ∧ list_forecasts blank_str (Some store_forecasts) None None (Some 1)
    = Body [stored_forecast_icon]
  ∧ list_forecasts blank_str (Some store_forecasts) None None (Some 200)
    = Body [stored_forecast_icon; rename_id blank_str stored_forecast].
Proof.
  destruct (limit_validated blank_str store_empty None (Some "t2m") (Some true) 201)
    as (_ & _ & H201 & _).
  destruct (limit_validated blank_str store_empty None None (Some true) 0)
    as (_ & _ & _ & H0 & _).
  destruct (limit_validated blank_str (Some store_forecasts) None None None 1)
    as (_ & _ & _ & _ & _ & _ & _ & _ & Hfirst & _).
  destruct (limit_validated blank_str (Some store_forecasts) None None None 200)
    as (_ & _ & _ & _ & _ & _ & _ & _ & Hall & _).
  split; [apply H201; lia|]. split; [apply H0; lia|]. split.
  - destruct (Hfirst ltac:(lia) store_forecasts eq_refl) as (found & -> & -> & _).
    reflexivity.
  - destruct (Hall ltac:(lia) store_forecasts eq_refl) as (found & -> & -> & _).
    reflexivity.
Defined.

Lemma get_forecast_absent_is_500_witness :
  ObjectId_of_str quoting_repr "0123456789abcdef01234567" = Return oid_sample
  ∧ get_forecast blank_str quoting_repr store_empty "0123456789abcdef01234567"
    = Error 500 "404: Forecast not found"
  ∧ status (get_forecast blank_str quoting_repr store_empty
              "0123456789abcdef01234567") = 500.
Proof.
  assert (get_forecast blank_str quoting_repr store_empty "0123456789abcdef01234567"
          = Error 500 "404: Forecast not found") as H.
  { apply (get_forecast_absent_is_500 blank_str quoting_repr ∅ _ oid_sample);
      reflexivity. }
  split; [reflexivity|]. split; [exact H|]. rewrite H. reflexivity.
Defined.



Lemma bbox_length_enforced_witness :
  post_api_forecasts store_empty oid_sample body_short_bbox
  = (Error 422 "body.bbox", store_empty).
Proof.
  destruct bbox_length_enforced as [Hreject _].
  destruct (Hreject store_empty oid_sample body_short_bbox) as (fields & Hv & _ & Hp).
  - intros l [= <-]. cbn. lia.
  - rewrite Hp. vm_compute in Hv. injection Hv as <-. reflexivity.
Defined.

Lemma list_alerts_filter_witness :
  list_alerts blank_str (Some store_alerts) (Some true) None
  = Body [<["id" := VStr "0123456789abcdef01234567"]>
            (<["name" := VStr "heat"]> (<["active" := VBool true]> ∅))]
  ∧ list_alerts blank_str (Some store_alerts) (Some false) None = Body [alert_off]
  ∧ list_alerts blank_str (Some store_alerts) None None
    = Body [rename_id blank_str alert_on; alert_off].
Proof.
  assert (1 <= default 50 (None : option Z) <= 500) as Hn by (cbn; lia).
  destruct (list_alerts_filter blank_str store_alerts None Hn) as [Hb Hall].
  split; [|split].
  - destruct (Hb true) as (docs & -> & -> & _). reflexivity.
  - destruct (Hb false) as (docs & -> & -> & _). reflexivity.
  - rewrite Hall. reflexivity.
Defined.

Lemma rename_id_frame_witness :
  rename_id blank_str alert_on !! "_id" = None
  ∧ rename_id blank_str alert_on !! "id" = Some (VStr "0123456789abcdef01234567")
  ∧ rename_id blank_str alert_on !! "active" = Some (VBool true)
  ∧ rename_id blank_str alert_off = alert_off.
Proof.
  destruct (rename_id_frame blank_str alert_on) as (Hid & _ & _ & Hother & _).
  destruct (rename_id_frame blank_str alert_off) as (_ & _ & Hnone & _).
  destruct (Hid (VOid oid_sample) eq_refl eq_refl) as [H1 H2].
  split; [exact H1|]. split; [exact H2|]. split.
  - rewrite Hother by discriminate. reflexivity.
  - apply Hnone. reflexivity.
Defined.

(** ** The further properties on the sample inputs *)

Lemma literal_round_trip_witness :
  parse_ModelName "GFS" = Some GFS ∧ str_ModelName GFS = "GFS".
Proof.
  destruct literal_round_trip as (_ & Hspell & _).
  split; [reflexivity|]. exact (Hspell "GFS" GFS eq_refl).
Defined.

Lemma forecast_accepted_iff_witness :
  forecast_body_ok body_sample ∧ ¬ forecast_body_ok body_short_bbox.
Proof.
  split.
  - apply forecast_accepted_iff. exists forecast_sample. reflexivity.
  - intros [f Hf]%forecast_accepted_iff. vm_compute in Hf. discriminate Hf.
Defined.

Lemma forecast_record_of_body_witness :
  validate_forecast body_sample = inr forecast_sample
  ∧ model_dump forecast_sample !! "model" = Some (VStr "GFS")
  ∧ model_dump forecast_sample !! "variable" = Some (VStr "t2m")
  ∧ model_dump forecast_sample !! "grid_res_km" = Some (VFloat 10%float).
Proof.
  destruct (forecast_record_of_body body_sample forecast_sample eq_refl)
    as (Hm & _ & _ & Hv & _ & Hg & _).
  split; [reflexivity|]. split; [exact Hm|]. split; [exact Hv|exact Hg].
Defined.

Lemma alert_accepted_iff_witness :
  alert_body_ok alert_body_sample.
Proof. apply alert_accepted_iff. exists alert_sample. reflexivity. Defined.

Lemma alert_record_of_body_witness :
  validate_alert alert_body_sample = inr alert_sample
  ∧ model_dump alert_sample !! "comparison" = Some (VStr ">=")
  ∧ model_dump alert_sample !! "active" = Some (VBool true).
Proof.
  destruct (alert_record_of_body alert_body_sample alert_sample eq_refl)
    as (_ & _ & _ & Hc & _ & Ha & _).
  split; [reflexivity|]. split; [exact Hc|exact Ha].
Defined.

Lemma get_forecast_malformed_id_witness :
  get_forecast blank_str quoting_repr None "not-an-id"
  = Error 500 ("'not-an-id' is not a valid ObjectId, it must be a 12-byte input "
               +:+ "or a 24-character hex string")
  ∧ get_forecast blank_str quoting_repr None "0123456789abcdef0123456 7"
    = Error 500 ("'0123456789abcdef0123456 7' is not a valid ObjectId, "
                 +:+ "it must be a 12-byte input or a 24-character hex string").
Proof.
  split.
  - apply (get_forecast_malformed_id blank_str quoting_repr None "not-an-id").
    left. vm_compute. discriminate.
  - apply (get_forecast_malformed_id blank_str quoting_repr None
             "0123456789abcdef0123456 7").
    right. reflexivity.
Defined.

(** bson takes an identifier of 24 characters in which a pair of digits is
    replaced by whitespace: bytes.fromhex skips it, and the store is asked. *)
Example get_forecast_whitespace_id :
  ObjectId_of_str quoting_repr "0123456789abcdef012345  "
  = Return [H0; H1; H2; H3; H4; H5; H6; H7; H8; H9; Ha; Hb; Hc; Hd; He; Hf;
            H0; H1; H2; H3; H4; H5]
  ∧ get_forecast blank_str quoting_repr None "0123456789abcdef012345  "
    = Error 500 "Database not available".
Proof. split; reflexivity. Qed.

Lemma get_forecast_found_witness :
  ∃ d, get_forecast blank_str quoting_repr (Some store_forecasts)
         "0123456789ABCDEF01234567" = Body d
     ∧ d !! "_id" = None
     ∧ d !! "id" = Some (VStr "0123456789abcdef01234567").
Proof.
  destruct (get_forecast blank_str quoting_repr (Some store_forecasts)
              "0123456789ABCDEF01234567")
    as [d|c m] eqn:E; [|vm_compute in E; discriminate E].
  destruct (get_forecast_found blank_str quoting_repr _ _ _ E)
    as (oid & stored & Ho & _ & _ & Hn & Hi & _).
  vm_compute in Ho. injection Ho as <-.
  exists d. split; [reflexivity|]. split; [exact Hn|exact Hi].
Defined.

Lemma listings_hide_store_id_witness :
  rename_id blank_str (<["_id" := VInt 0]> ∅) !! "_id" = Some (VInt 0)
  ∧ truthy (VInt 0) = false.
Proof.
  destruct (listings_hide_store_id blank_str) as (_ & Hfalsy & _).
  split; [reflexivity|].
  exact (Hfalsy (<["_id" := VInt 0]> ∅) (VInt 0) eq_refl).
Defined.

Lemma list_forecasts_filter_witness :
  list_forecasts blank_str (Some store_forecasts) (Some "GFS") (Some "") None
  = Body [rename_id blank_str stored_forecast]
  ∧ list_forecasts blank_str (Some store_forecasts) (Some "XYZ") None None = Body [].
Proof.
  assert (1 <= default 20 (None : option Z) <= 200) as Hn by (cbn; lia).
  destruct (list_forecasts_filter blank_str store_forecasts (Some "GFS") (Some "")
              None Hn) as [H1 _].
  destruct (list_forecasts_filter blank_str store_forecasts (Some "XYZ") None
              None Hn) as [H2 _].
  split; [rewrite H1|rewrite H2]; reflexivity.
Defined.

Lemma post_alert_then_list_witness :
  (post_api_alerts store_empty oid_sample alert_body_sample).1
  = Body {| id := "0123456789abcdef01234567" |}
  ∧ ∃ docs,
      list_alerts blank_str (post_api_alerts store_empty oid_sample alert_body_sample).2
        (Some true) None = Body docs
      ∧ <["id" := VStr "0123456789abcdef01234567"]> (model_dump alert_sample) ∈ docs.
Proof.
  split; [reflexivity|].
  assert (Z.of_nat (length (collection store_empty "alert"))
          < default 50 (None : option Z) <= 500) as Hn
    by (split; vm_compute; discriminate || reflexivity).
  destruct (post_alert_then_list blank_str store_empty
              (post_api_alerts store_empty oid_sample alert_body_sample).2
              oid_sample alert_body_sample alert_sample
              {| id := "0123456789abcdef01234567" |} None eq_refl eq_refl Hn)
    as [H _].
  exact H.
Defined.

Lemma store_append_only_witness :
  status (post_api_forecasts store_empty oid_sample body_short_bbox).1 = 422
  ∧ (post_api_forecasts store_empty oid_sample body_short_bbox).2 = store_empty.
Proof.
  destruct store_append_only as (_ & Hsame & _).
  split; [reflexivity|]. apply Hsame. vm_compute. discriminate.
Defined.

Lemma meteogram_route_witness :
  status (route_api_meteogram flat_sin keep_round clock_leap
            {| mbody_lat := Some 10%float; mbody_lon := Some 20%float;
               mbody_variable := Some "u10"; mbody_forecast_id := None |}) = 422
  ∧ parse_ForecastVariable "u10" = Some fv_u10.
Proof.
  destruct (meteogram_route flat_sin keep_round clock_leap
              {| mbody_lat := Some 10%float; mbody_lon := Some 20%float;
                 mbody_variable := Some "u10"; mbody_forecast_id := None |})
    as (_ & Hbad & _).
  split; [|reflexivity]. apply Hbad. right. right. exists "u10".
  split; [reflexivity|]. rewrite list_elem_of_In. cbn. intuition discriminate.
Defined.

Lemma meteogram_times_on_the_hour_witness :
  ∃ r, post_api_meteogram flat_sin keep_round clock_leap req_t2m = Body r
     ∧ times r !! 26%nat = Some "2024-03-01T00:00:00Z".
Proof.
  destruct (post_api_meteogram flat_sin keep_round clock_leap req_t2m)
    as [r|c m] eqn:E; [|vm_compute in E; discriminate E].
  destruct (meteogram_times_on_the_hour flat_sin keep_round _ _ _ 26 E
              ltac:(lia)) as (y & m & d & Ho & Ht).
  vm_compute in Ho. injection Ho as <- <- <-.
  exists r. split; [reflexivity|exact Ht].
Defined.

Lemma meteogram_answered_iff_in_range_witness :
  valid_datetime clock_last_days
  ∧ post_api_meteogram flat_sin keep_round clock_last_days req_t2m
    = Error 500 "Internal Server Error".
Proof.
  assert (valid_datetime clock_last_days) as Hv
    by (unfold valid_datetime; repeat split; vm_compute; discriminate || reflexivity).
  split; [exact Hv|].
  destruct (meteogram_answered_iff_in_range flat_sin keep_round clock_last_days
              req_t2m Hv) as [_ Hout].
  apply Hout. vm_compute. reflexivity.
Defined.


(** The slice counts characters: in "°C!" the degree sign is two bytes and
    one character. *)
Example take_chars_degree_sign :
  take_chars 2 "°C!" = "°C" ∧ char_length "°C" = 2%nat
  ∧ String.length "°C" = 3%nat.
Proof. repeat split; reflexivity. Qed.
